(** * Weakly shared information of the logarithmic decomposition

    A shallow embedding of [dit/log_decomp/intersection.py] and of the PID
    adapter [dit/pid/measures/ilogdec.py], with the properties of the
    intersection engine proved over it.

    Python values are a tagged union ([pyval]); a Python call either returns
    a value or raises ([result]).  The functions that [intersection.py]
    imports from [content.py] and [combinatorics.py] are not part of the
    embedded sources: [content] and [measure] are section variables, while
    [get_n_atoms] and [upper_set] are modelled from their specification.

    The functions are embedded twice.  First by value: arguments are
    values, and the set the engine builds and pops from is passed along
    explicitly.  Then on a heap of objects: arguments are references, a
    call returns the heap it leaves, and [pop()] changes the object it is
    called on; this is where the absence of side effects is stated. *)

From Stdlib Require Import ZArith String Ascii.
From stdpp Require Import base option list sets gmap strings.

Local Open Scope string_scope.
Local Open Scope list_scope.

(** ** Exceptions and results *)

Inductive exn_class : Type :=
  | TypeError
  | ValueError
  | KeyError
  | PyException (name : string).

Inductive exn : Type :=
  | Exn (cls : exn_class) (msg : string).

Inductive result (A : Type) : Type :=
  | Ok (a : A)
  | Raise (e : exn).

Arguments Ok {A} a.
Arguments Raise {A} e.

#[global] Instance result_ret : MRet result := fun A a => Ok a.

#[global] Instance result_bind : MBind result := fun A B k r =>
  match r with
  | Ok a => k a
  | Raise e => Raise e
  end.

Definition is_Ok {A} (r : result A) : Prop := exists a, r = Ok a.

(** ** Python's built-in [set], as far as the engine observes it

    A [set] object is represented by the sequence in which iteration visits
    its members.  Neither the order produced by building a set nor the
    member chosen by [pop()] is fixed by the language: both are operations of
    an interface whose laws say only what Python guarantees. *)

Class PySet (X : Type) : Type := {
  (* the set built by inserting the items of a sequence one after another *)
  set_build : list X -> list X;
  (* [s.pop()]: the removed member and the set that remains, or nothing
     when [s] is empty (Python raises [KeyError] then) *)
  set_pop : list X -> option (X * list X);
  set_build_NoDup : forall l, NoDup (set_build l);
  set_build_elem : forall l x, x ∈ set_build l <-> x ∈ l;
  set_pop_empty : set_pop [] = None;
  set_pop_member : forall l, l <> [] ->
    exists x r, set_pop l = Some (x, r) /\ l ≡ₚ x :: r
}.

Section set_orders.
Context `{EqDecision X}.

Definition pop_first (l : list X) : option (X * list X) :=
  match l with
  | [] => None
  | x :: r => Some (x, r)
  end.

Definition pop_first_reversing (l : list X) : option (X * list X) :=
  match l with
  | [] => None
  | x :: r => Some (x, reverse r)
  end.

(** One implementation: members are kept in insertion order and [pop()]
    takes the oldest one. *)
Definition insertion_order : PySet X.
Proof.
  refine {| set_build := remove_dups; set_pop := pop_first |}.
  - apply NoDup_remove_dups.
  - apply elem_of_remove_dups.
  - reflexivity.
  - intros [|x r] Hl; [done|]. by exists x, r.
Defined.

(** Another one: members are kept in reverse insertion order, and popping
    turns the remaining members around. *)
Definition reversing_order : PySet X.
Proof.
  refine {| set_build := fun l => reverse (remove_dups l);
            set_pop := pop_first_reversing |}.
  - intros l. rewrite reverse_Permutation. apply NoDup_remove_dups.
  - intros l x. rewrite elem_of_reverse. apply elem_of_remove_dups.
  - reflexivity.
  - intros [|x r] Hl; [done|]. exists x, (reverse r).
    split; [done|]. by rewrite reverse_Permutation.
Defined.

End set_orders.

(** ** Python values *)

Section log_decomp.

(** Atoms of the redundancy lattice are immutable, hashable and compared by
    value; distributions and floating-point numbers are opaque here. *)
Context {atom : Type} {atom_eq_dec : EqDecision atom}
  {atom_countable : Countable atom}.
Context {Dist float : Type}.

#[warnings="-register-all"]
Inductive pyval : Type :=
  | PyNone
  | PyBool (b : bool)
  | PyInt (n : Z)
  | PyFloat (x : float)
  | PyStr (s : string)
  | PyList (items : list pyval)
  | PyTuple (items : list pyval)
  | PyAtomSet (atoms : gset atom)
  | PyDist (d : Dist).

(** [isinstance(v, Distribution)] *)
Definition isinstance_Distribution (v : pyval) : bool :=
  match v with PyDist _ => true | _ => false end.

(** [isinstance(v, list)] *)
Definition isinstance_list (v : pyval) : bool :=
  match v with PyList _ => true | _ => false end.

(** [isinstance(v, int)]: [bool] is a subclass of [int]. *)
Definition isinstance_int (v : pyval) : bool :=
  match v with PyInt _ | PyBool _ => true | _ => false end.

(** [isinstance(v, str)] *)
Definition isinstance_str (v : pyval) : bool :=
  match v with PyStr _ => true | _ => false end.

(** [isinstance(v, float)] *)
Definition isinstance_float (v : pyval) : bool :=
  match v with PyFloat _ => true | _ => false end.

(** [v == s] for a string literal [s] *)
Definition py_eq_str (v : pyval) (s : string) : bool :=
  match v with PyStr s' => String.eqb s' s | _ => false end.

(** [v in ["even", "odd"]] *)
Definition in_even_odd (v : pyval) : bool :=
  py_eq_str v "even" || py_eq_str v "odd".

(** The integer an [int] (or [bool]) stands for. *)
Definition py_int_value (v : pyval) : option Z :=
  match v with
  | PyInt n => Some n
  | PyBool b => Some (Z.b2z b)
  | _ => None
  end.

(** What the specification calls a valid order: an integer, "even" or
    "odd". *)
Definition valid_order (order : pyval) : bool :=
  isinstance_int order || in_even_odd order.

(** What the specification calls a numeric logarithm base. *)
Definition valid_log_base (log_base : pyval) : bool :=
  isinstance_int log_base || isinstance_float log_base.

(** A sequence, and a sequence of sequences, among the built-in types. *)
Definition is_sequence (v : pyval) : bool :=
  match v with PyList _ | PyTuple _ | PyStr _ => true | _ => false end.

Definition is_sequence_of_sequences (v : pyval) : bool :=
  match v with
  | PyList items | PyTuple items => forallb is_sequence items
  | PyStr _ => true
  | _ => false
  end.

(** ** Collaborators that live outside the embedded sources *)

(** [content(dist, group)] and [measure(dist, atom_set, log_base)] of
    [log_decomp/content.py].  Either may raise, for instance on a group that
    names a variable the distribution does not have. *)
Variable content : Dist -> pyval -> result (gset atom).
Variable measure : Dist -> pyval -> pyval -> result pyval.

(** Iteration over an object whose class is defined outside the embedded
    sources (a distribution, a set of atoms). *)
Variable iter_foreign : pyval -> result (list pyval).

(** The redundancy lattice of a distribution: its atoms, for each atom its
    order, and whether one atom lies above another. *)
Variable lattice : Dist -> gset atom.
Variable atom_order : atom -> nat.
Variable is_above : Dist -> atom -> atom -> bool.

(** The floating-point zero. *)
Variable float_zero : float.

(** The test an [order] stands for, on the order of an atom. *)
Definition order_test (order : pyval) : option (nat -> bool) :=
  match order with
  | PyStr s =>
      if String.eqb s "even" then Some (fun k => Nat.ltb 0 k && Nat.even k)
      else if String.eqb s "odd" then Some Nat.odd
      else None
  | _ =>
      match py_int_value order with
      | Some n => Some (fun k => Z.eqb (Z.of_nat k) n)
      | None => None
      end
  end.

(** Modelled from the spec: [get_n_atoms] of [log_decomp/combinatorics.py],
    which is not among the embedded sources.  It filters [atom_set] to the
    atoms whose order matches [order]: an integer matches exactly, "even"
    the even positive orders, "odd" the odd positive orders; any other
    [order] is a [TypeError].  An empty result is not an error. *)
Definition get_n_atoms (atom_set : gset atom) (order : pyval)
    : result (gset atom) :=
  match order_test order with
  | Some test =>
      Ok (filter (fun a => test (atom_order a) = true) atom_set)
  | None =>
      Raise (Exn TypeError "'order' must be either an integer, 'even' or 'odd'.")
  end.

(** Modelled from the spec: [upper_set] of [log_decomp/combinatorics.py],
    which is not among the embedded sources.  It returns the atoms of the
    distribution's lattice that are reachable along the is-above order from
    some seed atom, the seed atoms themselves included. *)
Definition upper_set (d : Dist) (atoms : gset atom) : gset atom :=
  filter (fun a => Exists (fun s => a = s \/ is_above d s a = true)
                          (elements atoms))
         (lattice d).

(** ** The intersection engine ([log_decomp/intersection.py]) *)

Section engine.

(** The implementation of [set] the interpreter happens to use. *)
Context {set_impl : PySet (gset atom)}.

(** [for content_set in relevant_contents:
       intersection_set = intersection_set.intersection(content_set)] *)
Definition intersect_all (intersection_set : gset atom)
    (relevant_contents : list (gset atom)) : gset atom :=
  foldl (fun acc content_set => acc ∩ content_set)
        intersection_set relevant_contents.

(** [weakly_shared_content(dist, list_of_rv_groups, order = 2)].  The two
    [isinstance] checks on [dist] and [list_of_rv_groups] are the two outer
    matches, in the order of the source; their failing branches are the last
    two lines. *)
Definition weakly_shared_content (dist list_of_rv_groups order : pyval)
    : result pyval :=
  (* Check the inputs are the correct types. *)
  match dist with
  | PyDist d =>
    match list_of_rv_groups with
    | PyList groups =>
      if negb (isinstance_int order || isinstance_str order) then
        Raise (Exn TypeError
                 "'order' must be either an integer, 'even' or 'odd'.")
      else if isinstance_str order && negb (in_even_odd order) then
        Raise (Exn ValueError
                 "'order' must be either an integer, 'even' or 'odd'.")
      else
        (* Compute the relevant content. *)
        contents ← mapM (content d) groups;
        let relevant_contents := set_build contents in
        (* Initialise a large set. *)
        match set_pop relevant_contents with
        | None => Raise (Exn KeyError "pop from an empty set")
        | Some (first, relevant_contents) =>
          (* Loop over an intersection. *)
          let intersection_set := intersect_all first relevant_contents in
          (* Take the intersection_set and find the relevant atoms. *)
          filtered_atoms ← get_n_atoms intersection_set order;
          (* Compute the upper set of these atoms. *)
          let set_to_measure := upper_set d filtered_atoms in
          Ok (PyAtomSet set_to_measure)
        end
    | _ =>
      Raise (Exn TypeError
        "'list_of_rv_groups' must be a list of lists of random variables.")
    end
  | _ => Raise (Exn TypeError "'dist' must be a dit distribution.")
  end.

(** [weakly_shared(dist, list_of_rv_groups, order = 2, log_base = 2)].  The
    check of [log_base] comes after the type check of [order] and before the
    check of its value, as in the source. *)
Definition weakly_shared (dist list_of_rv_groups order log_base : pyval)
    : result pyval :=
  (* Check the inputs are the correct types. *)
  match dist with
  | PyDist d =>
    match list_of_rv_groups with
    | PyList _ =>
      if negb (isinstance_int order || isinstance_str order) then
        Raise (Exn TypeError
                 "'order' must be either an integer, 'even' or 'odd'.")
      else if negb (isinstance_int log_base || isinstance_float log_base) then
        Raise (Exn TypeError "'log_base' must be an int or a float.")
      else if isinstance_str order && negb (in_even_odd order) then
        Raise (Exn ValueError
                 "'order' must be either an integer, 'even' or 'odd'.")
      else
        (* Get the set. *)
        set_to_measure ← weakly_shared_content dist list_of_rv_groups order;
        (* Measure the set. *)
        shared_information ← measure d set_to_measure log_base;
        (* Return this. *)
        Ok shared_information
    | _ =>
      Raise (Exn TypeError
        "'list_of_rv_groups' must be a list of lists of random variables.")
    end
  | _ => Raise (Exn TypeError "'dist' must be a dit distribution.")
  end.

(** The body of [strongly_shared_content] is its docstring alone: the call
    falls off the end of the function, which in Python returns [None]. *)
Definition strongly_shared_content (dist list_of_rv_groups order : pyval)
    : result pyval :=
  Ok PyNone.

(** ** The PID adapter ([pid/measures/ilogdec.py]) *)

Definition type_name (v : pyval) : string :=
  match v with
  | PyNone => "NoneType"
  | PyBool _ => "bool"
  | PyInt _ => "int"
  | PyFloat _ => "float"
  | PyStr _ => "str"
  | PyList _ => "list"
  | PyTuple _ => "tuple"
  | PyAtomSet _ => "set"
  | PyDist _ => "Distribution"
  end.

(** The items that iterating over [v] yields. *)
Definition py_iter (v : pyval) : result (list pyval) :=
  match v with
  | PyList items | PyTuple items => Ok items
  | PyStr s => Ok (map (fun c => PyStr (String c EmptyString))
                       (list_ascii_of_string s))
  | PyAtomSet _ | PyDist _ => iter_foreign v
  | PyNone | PyBool _ | PyInt _ | PyFloat _ =>
      Raise (Exn TypeError
               ("'" +:+ type_name v +:+ "' object is not iterable"))
  end.

(** [list(v)] *)
Definition py_list (v : pyval) : result pyval :=
  items ← py_iter v; Ok (PyList items).

(** [PID_LogDec._measure(d, sources, target, order = 2, method = "cross")].
    The sources are converted whatever the method; a method that is neither
    of the two falls off the end of the function like "cross" does. *)
Definition PID_LogDec_measure (d sources target order method : pyval)
    : result pyval :=
  (* Format appropriately for log_decomp.shared. *)
  xs ← py_iter sources;
  lists ← mapM py_list xs;
  let source_list := [PyTuple lists] in
  (* If using the "shared-generator" measure, compute that way. *)
  if py_eq_str method "shared_generator" then
    (* [*source_list[0]] unpacks the tuple built above *)
    target_list ← py_list target;
    weakly_shared d (PyList (lists ++ [target_list])) order (PyInt 2)
  else if py_eq_str method "cross" then
    Ok PyNone
  else
    Ok PyNone.

End engine.

(** ** The engine as the specification words it

    Steps 2 to 4 of the algorithm, on the list of per-group content sets:
    the atoms common to every content set, filtered by order, then closed
    upwards. *)

Definition common_atoms (contents : list (gset atom)) : gset atom :=
  match contents with
  | [] => ∅
  | c :: cs => filter (fun a => Forall (fun c' => a ∈ c') cs) c
  end.

Definition filter_then_close (d : Dist) (common : gset atom) (order : pyval)
    : result pyval :=
  filtered ← get_n_atoms common order;
  Ok (PyAtomSet (upper_set d filtered)).

(** The content set of a group, empty where [content] raises. *)
Definition content_or_empty (d : Dist) (group : pyval) : gset atom :=
  match content d group with
  | Ok c => c
  | Raise _ => ∅
  end.

Section engine_properties.

Context {set_impl : PySet (gset atom)}.

(** ** Sets and intersections *)

Lemma elem_of_intersect_all (a : atom) (x : gset atom) (l : list (gset atom)) :
  a ∈ intersect_all x l <-> a ∈ x /\ forall c, c ∈ l -> a ∈ c.
Proof.
  unfold intersect_all. revert x.
  induction l as [|c l IH]; intros x; simpl.
  - split; [intros Ha; split; [done|] | by intros [Ha _]].
    intros c Hc. by apply elem_of_nil in Hc.
  - rewrite IH, elem_of_intersection. split.
    + intros [[Hx Hc] Hl]. split; [done|].
      intros c' [->|Hc']%elem_of_cons; auto.
    + intros [Hx Hl]. split; [split; [done|] |].
      * apply Hl. by left.
      * intros c' Hc'. apply Hl. by right.
Qed.

Lemma elem_of_common_atoms (a : atom) (contents : list (gset atom)) :
  contents <> [] ->
  a ∈ common_atoms contents <-> forall c, c ∈ contents -> a ∈ c.
Proof.
  destruct contents as [|c cs]; [done|]. intros _. simpl.
  rewrite elem_of_filter, Forall_forall. split.
  - intros [Hcs Hc] c' [->|Hc']%elem_of_cons; auto.
  - intros Hall. split.
    + intros c' Hc'. apply Hall. by right.
    + apply Hall. by left.
Qed.

Lemma common_atoms_singleton (c : gset atom) : common_atoms [c] = c.
Proof.
  apply set_eq. intros a. rewrite elem_of_common_atoms by done. split.
  - intros Hall. apply Hall. by left.
  - by intros Ha c' ->%list_elem_of_singleton.
Qed.

(** Only membership in the list of content sets matters. *)
Lemma common_atoms_same_members (cs1 cs2 : list (gset atom)) :
  cs1 <> [] -> (forall c, c ∈ cs1 <-> c ∈ cs2) ->
  common_atoms cs1 = common_atoms cs2.
Proof.
  intros Hne Hmem.
  assert (cs2 <> []) as Hne2.
  { destruct cs1 as [|c cs1]; [done|]. intros ->.
    specialize (Hmem c). rewrite elem_of_cons, elem_of_nil in Hmem.
    apply Hmem. by left. }
  apply set_eq. intros a. rewrite !elem_of_common_atoms by done.
  split; intros Hall c Hc; apply Hall; by apply Hmem.
Qed.

Lemma set_build_nil : set_build (X := gset atom) [] = [].
Proof.
  destruct (set_build []) as [|c l] eqn:Hb; [done|].
  assert (c ∈ (@nil (gset atom))) as Hc.
  { apply set_build_elem. rewrite Hb. by left. }
  by apply elem_of_nil in Hc.
Qed.

(** Whatever member [pop()] picks and in whatever order the loop visits the
    others, the loop ends with the atoms common to all content sets. *)
Lemma pop_then_intersect (contents : list (gset atom)) :
  contents <> [] ->
  exists first rest,
    set_pop (set_build contents) = Some (first, rest) /\
    intersect_all first rest = common_atoms contents.
Proof.
  intros Hne.
  assert (set_build contents <> []) as Hb.
  { destruct contents as [|c cs]; [done|]. intros Hnil.
    assert (c ∈ set_build (c :: cs)) as Hc by (apply set_build_elem; by left).
    rewrite Hnil in Hc. by apply elem_of_nil in Hc. }
  destruct (set_pop_member _ Hb) as (first & rest & Hpop & Hperm).
  exists first, rest. split; [done|].
  apply set_eq. intros a.
  rewrite elem_of_intersect_all, elem_of_common_atoms by done. split.
  - intros [Hf Hr] c Hc. apply set_build_elem in Hc.
    rewrite Hperm in Hc. apply elem_of_cons in Hc as [->|Hc]; auto.
  - intros Hall. split.
    + apply Hall, set_build_elem. rewrite Hperm. by left.
    + intros c Hc. apply Hall, set_build_elem. rewrite Hperm. by right.
Qed.

(** ** The comprehension over the groups *)

Lemma mapM_Ok_Forall2 {A B} (f : A -> result B) (l : list A) (k : list B) :
  mapM f l = Ok k <-> Forall2 (fun x y => f x = Ok y) l k.
Proof.
  revert k. induction l as [|x l IH]; intros k; simpl.
  - split.
    + intros [= <-]. constructor.
    + intros ->%Forall2_nil_inv_l. done.
  - split.
    + destruct (f x) as [y|e] eqn:Hx; simpl; [|done].
      destruct (mapM f l) as [k'|e] eqn:Hl; simpl; [|done].
      intros [= <-]. constructor; [done|]. by apply IH.
    + intros (y & k' & Hx & Hl & ->)%Forall2_cons_inv_l.
      rewrite Hx. simpl. apply IH in Hl. rewrite Hl. done.
Qed.

Lemma mapM_Raise_app {A B} (f : A -> result B) (l1 l2 : list A) (e : exn) :
  mapM f l1 = Raise e -> mapM f (l1 ++ l2) = Raise e.
Proof.
  induction l1 as [|x l1 IH]; simpl; [done|].
  destruct (f x) as [y|e']; simpl; [|done].
  destruct (mapM f l1) as [k|e'] eqn:Hl; simpl; [done|].
  intros [= ->]. by rewrite IH.
Qed.

Lemma mapM_content_total (d : Dist) (groups : list pyval) :
  Forall (fun g => is_Ok (content d g)) groups ->
  mapM (content d) groups = Ok (map (content_or_empty d) groups).
Proof.
  intros Hall. apply mapM_Ok_Forall2.
  induction Hall as [|g groups [c Hg] _ IH]; simpl; constructor; [|done].
  unfold content_or_empty. by rewrite Hg.
Qed.

(** ** Validation of the order *)

Lemma valid_order_passes_checks (order : pyval) :
  valid_order order = true ->
  negb (isinstance_int order || isinstance_str order) = false /\
  isinstance_str order && negb (in_even_odd order) = false.
Proof.
  unfold valid_order. destruct order; simpl; try done.
  intros ->. done.
Qed.

Lemma valid_order_has_test (order : pyval) :
  valid_order order = true -> exists test, order_test order = Some test.
Proof.
  unfold valid_order, in_even_odd, order_test.
  destruct order; simpl; try done; eauto.
  destruct (String.eqb s "even"); [eauto|].
  destruct (String.eqb s "odd"); [eauto|done].
Qed.

Lemma get_n_atoms_valid_order (atom_set : gset atom) (order : pyval) :
  valid_order order = true -> is_Ok (get_n_atoms atom_set order).
Proof.
  intros [test Ht]%valid_order_has_test. unfold get_n_atoms.
  rewrite Ht. by eexists.
Qed.

Lemma get_n_atoms_empty (order : pyval) :
  valid_order order = true -> get_n_atoms ∅ order = Ok ∅.
Proof.
  intros [test Ht]%valid_order_has_test. unfold get_n_atoms.
  rewrite Ht. reflexivity.
Qed.

Lemma upper_set_empty (d : Dist) : upper_set d ∅ = ∅.
Proof.
  apply set_eq. intros a. unfold upper_set.
  rewrite elem_of_filter, elements_empty, Exists_nil, elem_of_empty. tauto.
Qed.

(** ** What a call of [weakly_shared_content] comes to *)

(** Past validation, the call returns what the specification's wording
    gives on the content sets, and raises [KeyError] when there are none. *)
Lemma weakly_shared_content_computes
    (d : Dist) (groups : list pyval) (order : pyval)
    (contents : list (gset atom)) :
  valid_order order = true ->
  mapM (content d) groups = Ok contents ->
  weakly_shared_content (PyDist d) (PyList groups) order =
    match contents with
    | [] => Raise (Exn KeyError "pop from an empty set")
    | _ :: _ => filter_then_close d (common_atoms contents) order
    end.
Proof.
  intros [Hc1 Hc2]%valid_order_passes_checks Hmap.
  unfold weakly_shared_content. rewrite Hc1, Hc2, Hmap. simpl.
  destruct contents as [|c cs].
  - by rewrite set_build_nil, set_pop_empty.
  - destruct (pop_then_intersect (c :: cs)) as (first & rest & -> & ->);
      [done|]. reflexivity.
Qed.

(** A group whose content cannot be computed stops the call with the
    exception of [content]. *)
Lemma weakly_shared_content_propagates
    (d : Dist) (groups : list pyval) (order : pyval) (e : exn) :
  valid_order order = true ->
  mapM (content d) groups = Raise e ->
  weakly_shared_content (PyDist d) (PyList groups) order = Raise e.
Proof.
  intros [Hc1 Hc2]%valid_order_passes_checks Hmap.
  unfold weakly_shared_content. by rewrite Hc1, Hc2, Hmap.
Qed.

(** An order that is not valid stops the call before the groups are
    looked at. *)
Lemma weakly_shared_content_invalid_order
    (d : Dist) (groups : list pyval) (order : pyval) :
  valid_order order = false ->
  weakly_shared_content (PyDist d) (PyList groups) order =
    Raise (Exn (if isinstance_str order then ValueError else TypeError)
               "'order' must be either an integer, 'even' or 'odd'.").
Proof.
  unfold valid_order, weakly_shared_content.
  destruct order; simpl; try done.
  by intros ->.
Qed.

Lemma Forall2_content_elem_of
    (d : Dist) (groups : list pyval) (contents : list (gset atom)) (g : pyval) :
  Forall2 (fun g c => content d g = Ok c) groups contents ->
  g ∈ groups ->
  exists c, c ∈ contents /\ content d g = Ok c.
Proof.
  induction 1 as [|g' c' groups contents Hg _ IH].
  - intros Hin. by apply elem_of_nil in Hin.
  - intros [->|Hin]%elem_of_cons.
    + exists c'. split; [by left|done].
    + destruct (IH Hin) as (c & Hc & Hgc). exists c. split; [by right|done].
Qed.

Lemma mapM_py_list_lists (ls : list (list pyval)) :
  mapM py_list (map PyList ls) = Ok (map PyList ls).
Proof.
  apply mapM_Ok_Forall2.
  induction ls as [|l ls IH]; simpl; constructor; done.
Qed.

(** Past validation, [weakly_shared] measures what
    [weakly_shared_content] returns. *)
Lemma weakly_shared_computes
    (d : Dist) (groups : list pyval) (order log_base : pyval) :
  valid_order order = true ->
  valid_log_base log_base = true ->
  weakly_shared (PyDist d) (PyList groups) order log_base =
    set_to_measure ← weakly_shared_content (PyDist d) (PyList groups) order;
    measure d set_to_measure log_base.
Proof.
  intros [Hc1 Hc2]%valid_order_passes_checks Hbase.
  unfold valid_log_base in Hbase.
  unfold weakly_shared. rewrite Hc1, Hc2, Hbase. cbn [negb].
  destruct (weakly_shared_content (PyDist d) (PyList groups) order)
    as [set_to_measure|e]; simpl; [|done].
  by destruct (measure d set_to_measure log_base).
Qed.

(** ** Properties of the intersection engine *)

(** C1. For a distribution, a non-empty list of groups each of which has a
    content set, and a valid order, [weakly_shared_content] returns the
    upper set of [get_n_atoms] applied to the atoms common to the content
    sets of all groups; for the one-group list it is the upper set of
    [get_n_atoms] applied to that group's content. *)
Theorem weakly_shared_content_upper_set_of_common_content
    (d : Dist) (order : pyval) :
  valid_order order = true ->
  (forall (groups : list pyval) (contents : list (gset atom)),
     groups <> [] ->
     Forall2 (fun g c => content d g = Ok c) groups contents ->
     exists common filtered : gset atom,
       (forall a, a ∈ common <-> forall c, c ∈ contents -> a ∈ c) /\
       get_n_atoms common order = Ok filtered /\
       weakly_shared_content (PyDist d) (PyList groups) order =
         Ok (PyAtomSet (upper_set d filtered)))
  /\
  (forall (g : pyval) (c : gset atom),
     content d g = Ok c ->
     exists filtered : gset atom,
       get_n_atoms c order = Ok filtered /\
       weakly_shared_content (PyDist d) (PyList [g]) order =
         Ok (PyAtomSet (upper_set d filtered))).
Proof.
  intros Horder. split.
  - intros groups contents Hne Hall.
    assert (contents <> []) as Hcne.
    { intros ->. by apply Forall2_nil_inv_r in Hall. }
    destruct (get_n_atoms_valid_order (common_atoms contents) order Horder)
      as [filtered Hf].
    exists (common_atoms contents), filtered. split; [|split; [done|]].
    + intros a. by apply elem_of_common_atoms.
    + apply mapM_Ok_Forall2 in Hall.
      rewrite (weakly_shared_content_computes d groups order contents)
        by done.
      destruct contents as [|c cs]; [done|].
      unfold filter_then_close. by rewrite Hf.
  - intros g c Hg.
    destruct (get_n_atoms_valid_order c order Horder) as [filtered Hf].
    exists filtered. split; [done|].
    rewrite (weakly_shared_content_computes d [g] order [c]).
    + rewrite common_atoms_singleton. unfold filter_then_close.
      by rewrite Hf.
    + done.
    + simpl. by rewrite Hg.
Qed.

(** C2. Listing two groups the other way round, and more generally listing
    the groups in any other order, does not change what
    [weakly_shared_content] returns (the groups being groups of the
    distribution, that is, each having a content set). *)
Theorem weakly_shared_content_group_order_irrelevant
    (d : Dist) (order : pyval) :
  (forall g1 g2 : pyval,
     is_Ok (content d g1) -> is_Ok (content d g2) ->
     weakly_shared_content (PyDist d) (PyList [g1; g2]) order =
     weakly_shared_content (PyDist d) (PyList [g2; g1]) order)
  /\
  (forall groups groups' : list pyval,
     Forall (fun g => is_Ok (content d g)) groups ->
     groups ≡ₚ groups' ->
     weakly_shared_content (PyDist d) (PyList groups) order =
     weakly_shared_content (PyDist d) (PyList groups') order).
Proof.
  assert (forall groups groups' : list pyval,
     Forall (fun g => is_Ok (content d g)) groups ->
     groups ≡ₚ groups' ->
     weakly_shared_content (PyDist d) (PyList groups) order =
     weakly_shared_content (PyDist d) (PyList groups') order) as Hperm.
  { intros groups groups' Hall Hp.
    destruct (valid_order order) eqn:Horder.
    - assert (Forall (fun g => is_Ok (content d g)) groups') as Hall'
        by (by rewrite <- Hp).
      rewrite (weakly_shared_content_computes d groups order _ Horder
                 (mapM_content_total d groups Hall)).
      rewrite (weakly_shared_content_computes d groups' order _ Horder
                 (mapM_content_total d groups' Hall')).
      destruct groups as [|g groups].
      + apply Permutation_nil_l in Hp as ->. done.
      + destruct groups' as [|g' groups'].
        { by apply Permutation_nil_r in Hp. }
        simpl. f_equal. apply (common_atoms_same_members
          (map (content_or_empty d) (g :: groups))
          (map (content_or_empty d) (g' :: groups'))); [done|].
        intros c. by rewrite Hp.
    - by rewrite !weakly_shared_content_invalid_order. }
  split; [|done].
  intros g1 g2 H1 H2. apply Hperm.
  - by repeat constructor.
  - apply perm_swap.
Qed.

(** C8. With a distribution, a valid order and the empty list of groups, the
    call gets past every check and then fails in [pop()] on the empty set:
    the exception is a [KeyError], not a [TypeError] or a [ValueError]. *)
Theorem weakly_shared_content_no_groups_KeyError
    (d : Dist) (order : pyval) :
  valid_order order = true ->
  weakly_shared_content (PyDist d) (PyList []) order =
    Raise (Exn KeyError "pop from an empty set").
Proof.
  intros Horder.
  by rewrite (weakly_shared_content_computes d [] order [] Horder).
Qed.

(** C9. Listing once more a group that already occurs in the list does not
    change what [weakly_shared_content] returns. *)
Theorem weakly_shared_content_duplicate_group
    (d : Dist) (groups : list pyval) (g : pyval) (order : pyval) :
  g ∈ groups ->
  weakly_shared_content (PyDist d) (PyList (groups ++ [g])) order =
  weakly_shared_content (PyDist d) (PyList groups) order.
Proof.
  intros Hin.
  destruct (valid_order order) eqn:Horder;
    [|by rewrite !weakly_shared_content_invalid_order].
  destruct (mapM (content d) groups) as [contents|e] eqn:Hmap.
  - pose proof Hmap as Hall. apply mapM_Ok_Forall2 in Hall.
    destruct (Forall2_content_elem_of d groups contents g Hall Hin)
      as (c & Hc & Hgc).
    assert (mapM (content d) (groups ++ [g]) = Ok (contents ++ [c])) as Hmap'.
    { apply mapM_Ok_Forall2, Forall2_app; [done|]. by repeat constructor. }
    rewrite (weakly_shared_content_computes d _ order _ Horder Hmap).
    rewrite (weakly_shared_content_computes d _ order _ Horder Hmap').
    destruct contents as [|c0 cs]; [by apply elem_of_nil in Hc|].
    simpl. f_equal.
    apply (common_atoms_same_members (c0 :: cs ++ [c]) (c0 :: cs)); [done|].
    intros c'. rewrite !elem_of_cons, elem_of_app, list_elem_of_singleton.
    apply elem_of_cons in Hc. split.
    + intros [Hc'|[Hc'|Hc']]; [by left|by right|by rewrite Hc'].
    + intros [Hc'|Hc']; [by left|right; by left].
  - rewrite (weakly_shared_content_propagates d groups order e) by done.
    apply weakly_shared_content_propagates; [done|].
    by apply mapM_Raise_app.
Qed.

(** C5. When there are at least two groups and their content sets are
    pairwise disjoint, no atom is common to them: the filtered atom set is
    empty, [weakly_shared_content] returns the upper set of the empty set,
    and [weakly_shared] returns 0 provided [measure] returns 0 on the empty
    atom set. *)
Theorem disjoint_contents_share_nothing
    (d : Dist) (groups : list pyval) (contents : list (gset atom))
    (order log_base : pyval) :
  valid_order order = true ->
  Forall2 (fun g c => content d g = Ok c) groups contents ->
  2 <= length groups ->
  (forall (i j : nat) (ci cj : gset atom),
     i <> j -> contents !! i = Some ci -> contents !! j = Some cj ->
     ci ## cj) ->
  get_n_atoms ∅ order = Ok ∅ /\
  weakly_shared_content (PyDist d) (PyList groups) order =
    Ok (PyAtomSet (upper_set d ∅)) /\
  (valid_log_base log_base = true ->
   measure d (PyAtomSet ∅) log_base = Ok (PyFloat float_zero) ->
   weakly_shared (PyDist d) (PyList groups) order log_base =
     Ok (PyFloat float_zero)).
Proof.
  intros Horder Hall Hlen Hdisj.
  assert (common_atoms contents = ∅) as Hcommon.
  { apply Forall2_length in Hall.
    destruct contents as [|c1 [|c2 cs]]; simpl in Hall; try lia.
    apply set_eq. intros a.
    rewrite elem_of_common_atoms by done. split.
    - intros Ha.
      assert (c1 ## c2) as H12 by (by apply (Hdisj 0 1)).
      exfalso. apply (H12 a); apply Ha.
      + by left.
      + right. by left.
    - intros Ha. by apply elem_of_empty in Ha. }
  assert (weakly_shared_content (PyDist d) (PyList groups) order =
            Ok (PyAtomSet (upper_set d ∅))) as Hwsc.
  { apply mapM_Ok_Forall2 in Hall as Hmap.
    rewrite (weakly_shared_content_computes d groups order contents)
      by done.
    destruct contents as [|c cs].
    - apply Forall2_length in Hall. simpl in Hall. lia.
    - rewrite Hcommon. unfold filter_then_close.
      by rewrite get_n_atoms_empty. }
  split; [by apply get_n_atoms_empty|]. split; [done|].
  intros Hbase Hzero.
  rewrite weakly_shared_computes by done.
  rewrite Hwsc. simpl. by rewrite upper_set_empty.
Qed.

(** C3. The code at the list [[7]], whose item is not a sequence: neither
    function raises an exception of its own.  All checks pass, the item is
    handed to [content], and what the call returns or raises is what
    [content] (and then [get_n_atoms], [upper_set] and [measure]) make of
    it, for every [content] and [measure].  The claim, the message of the
    check on the groups argument and the docstring ask for a list of lists
    and a [TypeError] before anything is computed. *)
Theorem validation_lets_non_sequence_item_through (d : Dist) :
  is_sequence_of_sequences (PyList [PyInt 7]) = false /\
  weakly_shared_content (PyDist d) (PyList [PyInt 7]) (PyInt 2) =
    (c ← content d (PyInt 7); filter_then_close d c (PyInt 2)) /\
  weakly_shared (PyDist d) (PyList [PyInt 7]) (PyInt 2) (PyInt 2) =
    (c ← content d (PyInt 7);
     set_to_measure ← filter_then_close d c (PyInt 2);
     measure d set_to_measure (PyInt 2)).
Proof.
  assert (weakly_shared_content (PyDist d) (PyList [PyInt 7]) (PyInt 2) =
            (c ← content d (PyInt 7); filter_then_close d c (PyInt 2)))
    as Hcontent.
  { destruct (content d (PyInt 7)) as [c|e] eqn:Hc.
    - rewrite (weakly_shared_content_computes d [PyInt 7] (PyInt 2) [c]).
      + by rewrite common_atoms_singleton.
      + reflexivity.
      + simpl. by rewrite Hc.
    - apply weakly_shared_content_propagates; [reflexivity|].
      simpl. by rewrite Hc. }
  split; [reflexivity|]. split; [exact Hcontent|].
  rewrite weakly_shared_computes by reflexivity.
  rewrite Hcontent. by destruct (content d (PyInt 7)).
Qed.

(** X12. Both functions raise [TypeError] when [dist] is not a distribution,
    when the groups argument is not a [list], or when [order] is neither an
    [int] nor a [str]; [weakly_shared] also when [log_base] is neither an
    [int] nor a [float]; with arguments of the right types they raise
    [ValueError] when [order] is a string other than "even" and "odd".  This
    holds whatever [content] and [measure] do, so nothing has been computed
    when the exception leaves. *)
Theorem validation_rejects_wrong_arguments
    (dist list_of_rv_groups order log_base : pyval) :
  (isinstance_Distribution dist = false \/
   isinstance_list list_of_rv_groups = false \/
   isinstance_int order || isinstance_str order = false ->
   exists msg,
     weakly_shared_content dist list_of_rv_groups order =
       Raise (Exn TypeError msg))
  /\
  (isinstance_Distribution dist = true ->
   isinstance_list list_of_rv_groups = true ->
   isinstance_str order = true -> in_even_odd order = false ->
   exists msg,
     weakly_shared_content dist list_of_rv_groups order =
       Raise (Exn ValueError msg))
  /\
  (isinstance_Distribution dist = false \/
   isinstance_list list_of_rv_groups = false \/
   isinstance_int order || isinstance_str order = false \/
   isinstance_int log_base || isinstance_float log_base = false ->
   exists msg,
     weakly_shared dist list_of_rv_groups order log_base =
       Raise (Exn TypeError msg))
  /\
  (isinstance_Distribution dist = true ->
   isinstance_list list_of_rv_groups = true ->
   isinstance_int log_base || isinstance_float log_base = true ->
   isinstance_str order = true -> in_even_odd order = false ->
   exists msg,
     weakly_shared dist list_of_rv_groups order log_base =
       Raise (Exn ValueError msg)).
Proof.
  repeat split.
  - intros Hbad.
    destruct dist; try (eexists; reflexivity).
    destruct list_of_rv_groups; try (eexists; reflexivity).
    destruct Hbad as [Hbad|[Hbad|Hbad]]; [done|done|].
    unfold weakly_shared_content. rewrite Hbad. simpl. by eexists.
  - intros Hd Hl Hs Heo.
    destruct dist; try done. destruct list_of_rv_groups; try done.
    destruct order; try done.
    unfold weakly_shared_content. simpl. rewrite Heo. simpl. by eexists.
  - intros Hbad.
    destruct dist; try (eexists; reflexivity).
    destruct list_of_rv_groups; try (eexists; reflexivity).
    unfold weakly_shared.
    destruct (isinstance_int order || isinstance_str order) eqn:Ho; simpl;
      [|by eexists].
    destruct Hbad as [Hbad|[Hbad|[Hbad|Hbad]]]; [done|done|done|].
    rewrite Hbad. simpl. by eexists.
  - intros Hd Hl Hb Hs Heo.
    destruct dist; try done. destruct list_of_rv_groups; try done.
    destruct order; try done.
    unfold weakly_shared. simpl. rewrite Hb, Heo. simpl. by eexists.
Qed.

(** C4, as the code has it.  With [method="cross"] the adapter converts its
    sources and then returns [None]; [strongly_shared_content] returns
    [None] as well.  Neither reports that it is not implemented. *)
Theorem unimplemented_paths_return_None
    (d target order : pyval) (sources : list (list pyval))
    (dist list_of_rv_groups order' : pyval) :
  PID_LogDec_measure d (PyList (map PyList sources)) target order
    (PyStr "cross") = Ok PyNone /\
  strongly_shared_content dist list_of_rv_groups order' = Ok PyNone.
Proof.
  split; [|reflexivity].
  unfold PID_LogDec_measure. simpl.
  by rewrite mapM_py_list_lists.
Qed.

(** C6. With [method="shared_generator"] the adapter returns what
    [weakly_shared] returns on the sources, each converted to a list, with
    the target, converted to a list, appended as the last group. *)
Theorem PID_LogDec_measure_delegates
    (d sources target order : pyval) (xs gs : list pyval) (t : pyval) :
  py_iter sources = Ok xs ->
  mapM py_list xs = Ok gs ->
  py_list target = Ok t ->
  PID_LogDec_measure d sources target order (PyStr "shared_generator") =
    weakly_shared d (PyList (gs ++ [t])) order (PyInt 2).
Proof.
  intros Hxs Hgs Ht. unfold PID_LogDec_measure.
  rewrite Hxs. simpl. rewrite Hgs. simpl. by rewrite Ht.
Qed.

(** C10. [strongly_shared_content] checks nothing and returns [None] on all
    arguments, whatever their types; no call raises. *)
Theorem strongly_shared_content_returns_None
    (dist list_of_rv_groups order : pyval) :
  strongly_shared_content dist list_of_rv_groups order = Ok PyNone /\
  forall e : exn,
    strongly_shared_content dist list_of_rv_groups order <> Raise e.
Proof.
  split.
  - reflexivity.
  - intros e. unfold strongly_shared_content. discriminate.
Qed.

(** ** Further properties of the engine and of the adapter *)

Lemma common_atoms_same_common (cs1 cs2 : list (gset atom)) :
  cs1 <> [] -> cs2 <> [] ->
  (forall a, (forall c, c ∈ cs1 -> a ∈ c) <-> (forall c, c ∈ cs2 -> a ∈ c)) ->
  common_atoms cs1 = common_atoms cs2.
Proof.
  intros Hne1 Hne2 Hsame. apply set_eq. intros a.
  rewrite !elem_of_common_atoms by done. apply Hsame.
Qed.

Lemma weakly_shared_content_on_contents
    (d : Dist) (groups : list pyval) (order : pyval)
    (contents : list (gset atom)) :
  valid_order order = true ->
  Forall2 (fun g c => content d g = Ok c) groups contents ->
  weakly_shared_content (PyDist d) (PyList groups) order =
    match contents with
    | [] => Raise (Exn KeyError "pop from an empty set")
    | _ :: _ => filter_then_close d (common_atoms contents) order
    end.
Proof.
  intros Horder Hall. apply weakly_shared_content_computes; [done|].
  by apply mapM_Ok_Forall2.
Qed.

Lemma mapM_Raise_first {A B} (f : A -> result B)
    (before : list A) (x : A) (after : list A) (e : exn) :
  Forall (fun y => is_Ok (f y)) before ->
  f x = Raise e ->
  mapM f (before ++ x :: after) = Raise e.
Proof.
  intros Hbefore Hx.
  induction Hbefore as [|y before [b Hy] _ IH]; simpl.
  - by rewrite Hx.
  - rewrite Hy. simpl. by rewrite IH.
Qed.

Lemma result_bind_Ok {A B} (a : A) (k : A -> result B) :
  (Ok a ≫= k) = k a.
Proof. reflexivity. Qed.

Lemma mapM_pointwise {A B} (f : A -> result B) (l l' : list A) :
  Forall2 (fun x x' => f x = f x') l l' -> mapM f l = mapM f l'.
Proof.
  induction 1 as [|x x' l l' Hx _ IH]; simpl; [done|].
  by rewrite Hx, IH.
Qed.

Lemma weakly_shared_invalid_order
    (d : Dist) (groups : list pyval) (order log_base : pyval) :
  valid_order order = false ->
  valid_log_base log_base = true ->
  weakly_shared (PyDist d) (PyList groups) order log_base =
    Raise (Exn (if isinstance_str order then ValueError else TypeError)
               "'order' must be either an integer, 'even' or 'odd'.").
Proof.
  unfold valid_order, valid_log_base, weakly_shared.
  intros Horder Hbase.
  destruct order; simpl in *; try done.
  rewrite Hbase, Horder. done.
Qed.

(** What the adapter comes to once its sources are converted. *)
Lemma PID_LogDec_measure_converted
    (d sources target order method : pyval) (xs gs : list pyval) :
  py_iter sources = Ok xs ->
  mapM py_list xs = Ok gs ->
  PID_LogDec_measure d sources target order method =
    if py_eq_str method "shared_generator" then
      target_list ← py_list target;
      weakly_shared d (PyList (gs ++ [target_list])) order (PyInt 2)
    else Ok PyNone.
Proof.
  intros Hxs Hgs. unfold PID_LogDec_measure.
  rewrite Hxs. simpl. rewrite Hgs. simpl.
  destruct (py_eq_str method "shared_generator"); [done|].
  by destruct (py_eq_str method "cross").
Qed.

(** X1. What [weakly_shared_content] returns depends on the groups only
    through the set of their content sets: two lists of groups whose content
    sets are the same sets, in whatever order and however often repeated,
    give the same result. *)
Theorem weakly_shared_content_depends_on_content_sets
    (d : Dist) (groups groups' : list pyval)
    (contents contents' : list (gset atom)) (order : pyval) :
  Forall2 (fun g c => content d g = Ok c) groups contents ->
  Forall2 (fun g c => content d g = Ok c) groups' contents' ->
  (forall c, c ∈ contents <-> c ∈ contents') ->
  weakly_shared_content (PyDist d) (PyList groups) order =
  weakly_shared_content (PyDist d) (PyList groups') order.
Proof.
  intros Hall Hall' Hmem.
  destruct (valid_order order) eqn:Horder;
    [|by rewrite !weakly_shared_content_invalid_order].
  rewrite (weakly_shared_content_on_contents d groups order contents)
    by done.
  rewrite (weakly_shared_content_on_contents d groups' order contents')
    by done.
  destruct contents as [|c cs], contents' as [|c' cs']; [done| | |].
  - exfalso. apply (elem_of_nil c'), Hmem. by left.
  - exfalso. apply (elem_of_nil c), Hmem. by left.
  - f_equal. by apply common_atoms_same_members.
Qed.

(** X2. A group whose content set contains the content set of a group that
    is already listed adds nothing: appending it leaves the result of
    [weakly_shared_content] unchanged. *)
Theorem weakly_shared_content_superset_group_redundant
    (d : Dist) (groups : list pyval) (contents : list (gset atom))
    (g : pyval) (c c0 : gset atom) (order : pyval) :
  Forall2 (fun g c => content d g = Ok c) groups contents ->
  content d g = Ok c ->
  c0 ∈ contents -> c0 ⊆ c ->
  weakly_shared_content (PyDist d) (PyList (groups ++ [g])) order =
  weakly_shared_content (PyDist d) (PyList groups) order.
Proof.
  intros Hall Hg Hc0 Hsub.
  destruct (valid_order order) eqn:Horder;
    [|by rewrite !weakly_shared_content_invalid_order].
  assert (Forall2 (fun g c => content d g = Ok c)
            (groups ++ [g]) (contents ++ [c])) as Hall'.
  { apply Forall2_app; [done|]. by repeat constructor. }
  rewrite (weakly_shared_content_on_contents d _ order _ Horder Hall').
  rewrite (weakly_shared_content_on_contents d _ order _ Horder Hall).
  destruct contents as [|c1 cs]; [by apply elem_of_nil in Hc0|].
  simpl. f_equal.
  apply (common_atoms_same_common (c1 :: cs ++ [c]) (c1 :: cs));
    [done|done|].
  intros a. split.
  - intros Ha c' Hc'. apply Ha.
    apply elem_of_cons in Hc' as [->|Hc']; [by left|].
    right. apply elem_of_app. by left.
  - intros Ha c' Hc'.
    apply elem_of_cons in Hc' as [->|Hc']; [apply Ha; by left|].
    apply elem_of_app in Hc' as [Hc'|Hc'].
    + apply Ha. by right.
    + apply list_elem_of_singleton in Hc' as ->. by apply Hsub, Ha.
Qed.

(** X3. When the content set of one listed group is contained in the
    content set of every listed group, [weakly_shared_content] returns what
    it returns for that group alone. *)
Theorem weakly_shared_content_smallest_group_decides
    (d : Dist) (groups : list pyval) (contents : list (gset atom))
    (g0 : pyval) (c0 : gset atom) (order : pyval) :
  Forall2 (fun g c => content d g = Ok c) groups contents ->
  g0 ∈ groups ->
  content d g0 = Ok c0 ->
  (forall c, c ∈ contents -> c0 ⊆ c) ->
  weakly_shared_content (PyDist d) (PyList groups) order =
  weakly_shared_content (PyDist d) (PyList [g0]) order.
Proof.
  intros Hall Hin Hg0 Hmin.
  destruct (valid_order order) eqn:Horder;
    [|by rewrite !weakly_shared_content_invalid_order].
  destruct (Forall2_content_elem_of d groups contents g0 Hall Hin)
    as (c & Hc & Hgc).
  assert (c = c0) as -> by congruence.
  assert (Forall2 (fun g c => content d g = Ok c) [g0] [c0]) as Hall0
    by (by repeat constructor).
  rewrite (weakly_shared_content_on_contents d _ order _ Horder Hall).
  rewrite (weakly_shared_content_on_contents d _ order _ Horder Hall0).
  destruct contents as [|c1 cs]; [by apply elem_of_nil in Hc|].
  f_equal. apply common_atoms_same_common; [done|done|].
  intros a. split.
  - intros Ha c' Hc'. apply list_elem_of_singleton in Hc' as ->.
    by apply Ha.
  - intros Ha c' Hc'. apply (Hmin c' Hc'), Ha. by left.
Qed.

(** X4. The groups are taken in the order of the list: when [content]
    raises on a group and returns on all groups listed before it, that
    exception leaves [weakly_shared_content], and [weakly_shared] as well,
    whatever the groups listed after it are. *)
Theorem first_failing_group_decides
    (d : Dist) (before : list pyval) (g : pyval) (after : list pyval)
    (order log_base : pyval) (e : exn) :
  valid_order order = true ->
  Forall (fun g' => is_Ok (content d g')) before ->
  content d g = Raise e ->
  weakly_shared_content (PyDist d) (PyList (before ++ g :: after)) order =
    Raise e /\
  (valid_log_base log_base = true ->
   weakly_shared (PyDist d) (PyList (before ++ g :: after)) order log_base =
     Raise e).
Proof.
  intros Horder Hbefore Hg.
  assert (weakly_shared_content (PyDist d)
            (PyList (before ++ g :: after)) order = Raise e) as Hwsc.
  { apply weakly_shared_content_propagates; [done|].
    by apply mapM_Raise_first. }
  split; [done|]. intros Hbase.
  rewrite weakly_shared_computes by done. by rewrite Hwsc.
Qed.

(** X5. With a numeric [log_base], [weakly_shared] fails exactly as
    [weakly_shared_content] fails on the same arguments (checks, empty list
    of groups and exceptions of [content] alike), and otherwise returns what
    [measure] makes of the set that [weakly_shared_content] returns, an
    exception of [measure] included. *)
Theorem weakly_shared_measures_shared_content
    (dist list_of_rv_groups order log_base : pyval) :
  valid_log_base log_base = true ->
  (forall e : exn,
     weakly_shared_content dist list_of_rv_groups order = Raise e ->
     weakly_shared dist list_of_rv_groups order log_base = Raise e) /\
  (forall (d : Dist) (shared : pyval),
     dist = PyDist d ->
     weakly_shared_content dist list_of_rv_groups order = Ok shared ->
     weakly_shared dist list_of_rv_groups order log_base =
       measure d shared log_base).
Proof.
  intros Hbase.
  destruct dist as [| | | | | | | |d0];
    try (split; [intros e He; exact He | intros d sh Hd; discriminate Hd]).
  destruct list_of_rv_groups as [| | | | |groups| | |];
    try (split; [intros e He; exact He | intros d' sh _ Hs; discriminate Hs]).
  destruct (valid_order order) eqn:Horder.
  - rewrite weakly_shared_computes by done. split.
    + intros e He. by rewrite He.
    + intros d sh Hd Hs. injection Hd as <-. by rewrite Hs.
  - rewrite weakly_shared_invalid_order by done.
    rewrite weakly_shared_content_invalid_order by done. split.
    + intros e He. exact He.
    + intros d sh _ Hs. discriminate Hs.
Qed.

(** X6. [weakly_shared] checks [log_base] before it checks the value of
    [order]: with a [log_base] that is neither an [int] nor a [float] it
    raises the [TypeError] about [log_base] whatever the groups are, also
    for an [order] string other than "even" and "odd", for which
    [weakly_shared_content] on the same arguments raises [ValueError]. *)
Theorem log_base_checked_before_order_value
    (d : Dist) (groups : list pyval) (order log_base : pyval) :
  isinstance_int order || isinstance_str order = true ->
  valid_log_base log_base = false ->
  weakly_shared (PyDist d) (PyList groups) order log_base =
    Raise (Exn TypeError "'log_base' must be an int or a float.") /\
  (valid_order order = false ->
   weakly_shared_content (PyDist d) (PyList groups) order =
     Raise (Exn ValueError
              "'order' must be either an integer, 'even' or 'odd'.")).
Proof.
  unfold valid_log_base. intros Horder Hbase. split.
  - unfold weakly_shared. by rewrite Horder, Hbase.
  - intros Hinvalid.
    rewrite weakly_shared_content_invalid_order by done.
    destruct order; try done.
Qed.

(** X7. The adapter does not check [method]: once the sources are
    converted, every method other than "shared_generator" (a misspelt one,
    a value that is not a string, "cross") makes it return [None], whatever
    the distribution, the target and the order are. *)
Theorem PID_LogDec_measure_other_method_None
    (d sources target order method : pyval) (xs gs : list pyval) :
  py_eq_str method "shared_generator" = false ->
  py_iter sources = Ok xs ->
  mapM py_list xs = Ok gs ->
  PID_LogDec_measure d sources target order method = Ok PyNone.
Proof.
  intros Hmethod Hxs Hgs.
  rewrite (PID_LogDec_measure_converted d sources target order method xs gs)
    by done.
  by rewrite Hmethod.
Qed.

(** X8. The adapter converts its sources before it looks at [method]: when
    the sources cannot be iterated over, or one of them cannot while those
    before it can, that exception leaves the adapter for every method,
    distribution, target and order. *)
Theorem PID_LogDec_measure_source_conversion_first
    (d sources target order method : pyval) (e : exn) :
  (py_iter sources = Raise e ->
   PID_LogDec_measure d sources target order method = Raise e) /\
  (forall (before : list pyval) (x : pyval) (after : list pyval),
     py_iter sources = Ok (before ++ x :: after) ->
     Forall (fun y => is_Ok (py_list y)) before ->
     py_iter x = Raise e ->
     PID_LogDec_measure d sources target order method = Raise e).
Proof.
  split.
  - intros Hs. unfold PID_LogDec_measure. by rewrite Hs.
  - intros before x after Hs Hbefore Hx.
    unfold PID_LogDec_measure. rewrite Hs. simpl.
    rewrite (mapM_Raise_first py_list before x after e); [done|done|].
    unfold py_list. by rewrite Hx.
Qed.

(** X9. The adapter sees its sources and its target only through the items
    they yield: sources that yield as many items, each yielding the same
    items, and a target yielding the same items give the same result (a
    tuple of tuples does what a list of lists does). *)
Theorem PID_LogDec_measure_items_only
    (d sources sources' target target' order method : pyval)
    (xs xs' : list pyval) :
  py_iter sources = Ok xs ->
  py_iter sources' = Ok xs' ->
  Forall2 (fun x x' => py_iter x = py_iter x') xs xs' ->
  py_iter target = py_iter target' ->
  PID_LogDec_measure d sources target order method =
  PID_LogDec_measure d sources' target' order method.
Proof.
  intros Hs Hs' Hitems Ht.
  assert (mapM py_list xs = mapM py_list xs') as Hlists.
  { apply mapM_pointwise. eapply Forall2_impl; [exact Hitems|].
    intros x x' Hx. unfold py_list. by rewrite Hx. }
  assert (py_list target = py_list target') as Htarget.
  { unfold py_list. by rewrite Ht. }
  unfold PID_LogDec_measure.
  by rewrite Hs, Hs', !result_bind_Ok, Htarget, Hlists.
Qed.

(** X10. Through the adapter the engine is never given an empty list of
    groups, since the target is always appended: for a distribution, a valid
    order and sources and target that have content sets, no sources at all
    included, the adapter returns what [measure] makes, to base 2, of the
    upper set of the filtered atoms common to all these content sets. *)
Theorem PID_LogDec_measure_never_pops_empty_set
    (d : Dist) (sources target order : pyval) (xs gs : list pyval)
    (t : pyval) (contents : list (gset atom)) :
  py_iter sources = Ok xs ->
  mapM py_list xs = Ok gs ->
  py_list target = Ok t ->
  valid_order order = true ->
  Forall2 (fun g c => content d g = Ok c) (gs ++ [t]) contents ->
  exists common : gset atom,
    (forall a, a ∈ common <-> forall c, c ∈ contents -> a ∈ c) /\
    PID_LogDec_measure (PyDist d) sources target order
      (PyStr "shared_generator") =
      filtered ← get_n_atoms common order;
      measure d (PyAtomSet (upper_set d filtered)) (PyInt 2).
Proof.
  intros Hxs Hgs Ht Horder Hall.
  assert (contents <> []) as Hne.
  { intros ->. apply Forall2_nil_inv_r in Hall. by destruct gs. }
  exists (common_atoms contents). split.
  { intros a. by apply elem_of_common_atoms. }
  rewrite (PID_LogDec_measure_converted (PyDist d) sources target order
             (PyStr "shared_generator") xs gs) by done.
  change (py_eq_str (PyStr "shared_generator") "shared_generator")
    with true.
  cbv iota. rewrite Ht.
  change (Ok t ≫= fun target_list =>
            weakly_shared (PyDist d) (PyList (gs ++ [target_list])) order
              (PyInt 2))
    with (weakly_shared (PyDist d) (PyList (gs ++ [t])) order (PyInt 2)).
  rewrite weakly_shared_computes by done.
  rewrite (weakly_shared_content_on_contents d _ order _ Horder Hall).
  destruct contents as [|c cs]; [done|].
  unfold filter_then_close.
  by destruct (get_n_atoms (common_atoms (c :: cs)) order).
Qed.

(** X11. Splitting the list of groups in two non-empty parts: the atoms
    that are filtered and closed for the whole list are those common to the
    atoms that are filtered and closed for the one part and for the other,
    so listing more groups can only narrow them. *)
Theorem weakly_shared_content_of_two_parts
    (d : Dist) (groups1 groups2 : list pyval)
    (contents1 contents2 : list (gset atom)) (order : pyval) :
  valid_order order = true ->
  groups1 <> [] -> groups2 <> [] ->
  Forall2 (fun g c => content d g = Ok c) groups1 contents1 ->
  Forall2 (fun g c => content d g = Ok c) groups2 contents2 ->
  exists common1 common2 : gset atom,
    (forall a, a ∈ common1 <-> forall c, c ∈ contents1 -> a ∈ c) /\
    (forall a, a ∈ common2 <-> forall c, c ∈ contents2 -> a ∈ c) /\
    weakly_shared_content (PyDist d) (PyList groups1) order =
      filter_then_close d common1 order /\
    weakly_shared_content (PyDist d) (PyList groups2) order =
      filter_then_close d common2 order /\
    weakly_shared_content (PyDist d) (PyList (groups1 ++ groups2)) order =
      filter_then_close d (common1 ∩ common2) order.
Proof.
  intros Horder Hne1 Hne2 Hall1 Hall2.
  assert (contents1 <> []) as Hc1.
  { intros ->. by apply Forall2_nil_inv_r in Hall1. }
  assert (contents2 <> []) as Hc2.
  { intros ->. by apply Forall2_nil_inv_r in Hall2. }
  exists (common_atoms contents1), (common_atoms contents2).
  split; [intros a; by apply elem_of_common_atoms|].
  split; [intros a; by apply elem_of_common_atoms|].
  rewrite (weakly_shared_content_on_contents d _ order _ Horder Hall1).
  rewrite (weakly_shared_content_on_contents d _ order _ Horder Hall2).
  assert (Forall2 (fun g c => content d g = Ok c)
            (groups1 ++ groups2) (contents1 ++ contents2)) as Hall
    by (by apply Forall2_app).
  rewrite (weakly_shared_content_on_contents d _ order _ Horder Hall).
  destruct contents1 as [|c1 cs1]; [done|].
  destruct contents2 as [|c2 cs2]; [done|].
  split; [done|]. split; [done|].
  simpl app. f_equal.
  apply set_eq. intros a.
  rewrite elem_of_intersection.
  rewrite !elem_of_common_atoms by done.
  split.
  - intros Ha. split; intros c Hc; apply Ha.
    + apply (elem_of_app (c1 :: cs1) (c2 :: cs2)). by left.
    + apply (elem_of_app (c1 :: cs1) (c2 :: cs2)). by right.
  - intros [Ha1 Ha2] c Hc.
    apply (elem_of_app (c1 :: cs1) (c2 :: cs2)) in Hc as [Hc|Hc]; auto.
Qed.

End engine_properties.

(** Whichever member [pop()] picks and in whichever order the sets are
    visited, the result of a call is the same; on a non-empty list of groups
    that have content sets and a valid order it is a set of atoms. *)
Lemma weakly_shared_any_set_implementation
    (impl1 impl2 : PySet (gset atom))
    (dist list_of_rv_groups order log_base : pyval) :
  weakly_shared_content (set_impl := impl1) dist list_of_rv_groups order =
  weakly_shared_content (set_impl := impl2) dist list_of_rv_groups order
  /\
  weakly_shared (set_impl := impl1) dist list_of_rv_groups order log_base =
  weakly_shared (set_impl := impl2) dist list_of_rv_groups order log_base
  /\
  (forall (d : Dist) (groups : list pyval),
     dist = PyDist d -> list_of_rv_groups = PyList groups ->
     groups <> [] -> valid_order order = true ->
     Forall (fun g => is_Ok (content d g)) groups ->
     exists atoms : gset atom,
       weakly_shared_content (set_impl := impl1)
         dist list_of_rv_groups order = Ok (PyAtomSet atoms)).
Proof.
  assert (forall impl impl' : PySet (gset atom),
    weakly_shared_content (set_impl := impl) dist list_of_rv_groups order =
    weakly_shared_content (set_impl := impl') dist list_of_rv_groups order)
    as Hsame.
  { intros impl impl'.
    destruct dist; try reflexivity.
    destruct list_of_rv_groups as [| | | | |groups| | |]; try reflexivity.
    destruct (valid_order order) eqn:Horder;
      [|by rewrite !weakly_shared_content_invalid_order].
    destruct (mapM (content d) groups) as [contents|e] eqn:Hmap.
    - by rewrite !(weakly_shared_content_computes d groups order contents).
    - by rewrite !(weakly_shared_content_propagates d groups order e). }
  split; [apply Hsame|]. split.
  - unfold weakly_shared. by rewrite (Hsame impl1 impl2).
  - intros d groups -> -> Hne Horder Hall.
    rewrite (weakly_shared_content_computes d groups order _ Horder
               (mapM_content_total d groups Hall)).
    destruct (map (content_or_empty d) groups) as [|c cs] eqn:Hcs.
    { by destruct groups. }
    unfold filter_then_close.
    destruct (get_n_atoms_valid_order (common_atoms (c :: cs)) order Horder)
      as [filtered ->].
    by eexists.
Qed.

(** ** Objects and the heap

    To say what a call leaves behind, the values of the variables are
    refined: a list, a tuple, a set or a distribution is an object on a
    heap, known by a reference, and a call is a function of the heap that
    returns the heap it leaves. *)

Section object_store.

Inductive val : Type :=
  | VNone
  | VBool (b : bool)
  | VInt (n : Z)
  | VFloat (x : float)
  | VStr (s : string)
  | VRef (l : positive).

Inductive object : Type :=
  | OList (items : list val)
  | OTuple (items : list val)
  (* a [set] of atoms *)
  | OAtomSet (atoms : gset atom)
  (* a [set] of frozensets of atoms, as iteration visits its members *)
  | OFrozensets (members : list (gset atom))
  | ODist (d : Dist).

Abbreviation heap := (gmap positive object).

(** A call: from the heap it finds to its outcome and the heap it leaves. *)
Definition prog (A : Type) : Type := heap -> result A * heap.

Definition hret {A} (a : A) : prog A := fun σ => (Ok a, σ).

Definition hraise {A} (e : exn) : prog A := fun σ => (Raise e, σ).

Definition hbind {A B} (k : A -> prog B) (m : prog A) : prog B := fun σ =>
  match m σ with
  | (Ok a, σ') => k a σ'
  | (Raise e, σ') => (Raise e, σ')
  end.

#[local] Instance prog_ret : MRet prog := fun A a => hret a.
#[local] Instance prog_bind : MBind prog := fun A B k m => hbind k m.

(** The heap as it is. *)
Definition hread : prog heap := fun σ => (Ok σ, σ).

(** A new object, at a location no object has. *)
Definition halloc (o : object) : prog val := fun σ =>
  let l := fresh (dom σ) in (Ok (VRef l), <[l := o]> σ).

(** [isinstance(v, Distribution)] and [isinstance(v, list)] *)
Definition obj_is_Distribution (σ : heap) (v : val) : bool :=
  match v with
  | VRef l => match σ !! l with Some (ODist _) => true | _ => false end
  | _ => false
  end.

Definition obj_is_list (σ : heap) (v : val) : bool :=
  match v with
  | VRef l => match σ !! l with Some (OList _) => true | _ => false end
  | _ => false
  end.

(** [isinstance(v, int)], [isinstance(v, str)], [isinstance(v, float)] and
    [v in ["even", "odd"]] *)
Definition val_is_int (v : val) : bool :=
  match v with VInt _ | VBool _ => true | _ => false end.

Definition val_is_str (v : val) : bool :=
  match v with VStr _ => true | _ => false end.

Definition val_is_float (v : val) : bool :=
  match v with VFloat _ => true | _ => false end.

Definition val_in_even_odd (v : val) : bool :=
  match v with
  | VStr s => String.eqb s "even" || String.eqb s "odd"
  | _ => false
  end.

(** The items that iterating over a list yields. *)
Definition list_items (v : val) : prog (list val) := fun σ =>
  match v with
  | VRef l =>
      match σ !! l with
      | Some (OList items) => (Ok items, σ)
      | _ => (Raise (Exn TypeError "object is not iterable"), σ)
      end
  | _ => (Raise (Exn TypeError "object is not iterable"), σ)
  end.

(** [frozenset(v)] for a set of atoms [v].  Atoms are not values of this
    model, so a set of atoms is the only iterable of atoms there is. *)
Definition frozenset (v : val) : prog (gset atom) := fun σ =>
  match v with
  | VRef l =>
      match σ !! l with
      | Some (OAtomSet atoms) => (Ok atoms, σ)
      | _ => (Raise (Exn TypeError "object is not iterable"), σ)
      end
  | _ => (Raise (Exn TypeError "object is not iterable"), σ)
  end.

(** [set(atoms)] for a frozenset of atoms: a new set object. *)
Definition new_atom_set (atoms : gset atom) : prog val :=
  halloc (OAtomSet atoms).

(** The members a comprehension computes, one item after the other. *)
Fixpoint collect (f : val -> prog (gset atom)) (items : list val)
    : prog (list (gset atom)) :=
  match items with
  | [] => hret []
  | item :: rest =>
      member ← f item;
      members ← collect f rest;
      hret (member :: members)
  end.

(** [s.pop()] on the object [s] refers to: the member is removed from that
    object. *)
Definition set_pop_obj `{!PySet (gset atom)} (s : val) : prog (gset atom) :=
  fun σ =>
  match s with
  | VRef l =>
      match σ !! l with
      | Some (OFrozensets members) =>
          match set_pop members with
          | Some (member, rest) => (Ok member, <[l := OFrozensets rest]> σ)
          | None => (Raise (Exn KeyError "pop from an empty set"), σ)
          end
      | _ => (Raise (Exn (PyException "AttributeError")
                       "object has no attribute 'pop'"), σ)
      end
  | _ => (Raise (Exn (PyException "AttributeError")
                   "object has no attribute 'pop'"), σ)
  end.

(** The members that iterating over the set [s] refers to yields. *)
Definition set_members (s : val) : prog (list (gset atom)) := fun σ =>
  match s with
  | VRef l =>
      match σ !! l with
      | Some (OFrozensets members) => (Ok members, σ)
      | _ => (Raise (Exn TypeError "object is not iterable"), σ)
      end
  | _ => (Raise (Exn TypeError "object is not iterable"), σ)
  end.

(** The collaborators, as calls: each gets its arguments as they are passed
    and may leave objects of its own on the heap. *)
Variable content_obj : val -> val -> prog val.
Variable get_n_atoms_obj : val -> val -> prog val.
Variable upper_set_obj : val -> val -> prog val.
Variable measure_obj : val -> val -> val -> prog val.

Section engine_on_heap.

Context {set_impl : PySet (gset atom)}.

(** [{frozenset(content(dist, group)) for group in list_of_rv_groups}]: a
    new set object. *)
Definition relevant_contents_of (dist list_of_rv_groups : val) : prog val :=
  groups ← list_items list_of_rv_groups;
  members ← collect (fun group => c ← content_obj dist group; frozenset c)
                    groups;
  halloc (OFrozensets (set_build members)).

(** [weakly_shared_content], statement by statement. *)
Definition weakly_shared_content_obj (dist list_of_rv_groups order : val)
    : prog val :=
  (* Check the inputs are the correct types. *)
  σ ← hread;
  if negb (obj_is_Distribution σ dist) then
    hraise (Exn TypeError "'dist' must be a dit distribution.")
  else if negb (obj_is_list σ list_of_rv_groups) then
    hraise (Exn TypeError
      "'list_of_rv_groups' must be a list of lists of random variables.")
  else if negb (val_is_int order || val_is_str order) then
    hraise (Exn TypeError
              "'order' must be either an integer, 'even' or 'odd'.")
  else if val_is_str order && negb (val_in_even_odd order) then
    hraise (Exn ValueError
              "'order' must be either an integer, 'even' or 'odd'.")
  else
    (* Compute the relevant content. *)
    relevant_contents ← relevant_contents_of dist list_of_rv_groups;
    (* Initialise a large set. *)
    intersection_set ← set_pop_obj relevant_contents;
    (* Loop over an intersection. *)
    remaining ← set_members relevant_contents;
    let intersection_set := intersect_all intersection_set remaining in
    (* Take the intersection_set and find the relevant atoms. *)
    copy ← new_atom_set intersection_set;
    filtered_atoms ← get_n_atoms_obj copy order;
    (* Compute the upper set of these atoms. *)
    set_to_measure ← upper_set_obj dist filtered_atoms;
    (* Return the set_to_measure *)
    hret set_to_measure.

(** [weakly_shared], statement by statement. *)
Definition weakly_shared_obj (dist list_of_rv_groups order log_base : val)
    : prog val :=
  (* Check the inputs are the correct types. *)
  σ ← hread;
  if negb (obj_is_Distribution σ dist) then
    hraise (Exn TypeError "'dist' must be a dit distribution.")
  else if negb (obj_is_list σ list_of_rv_groups) then
    hraise (Exn TypeError
      "'list_of_rv_groups' must be a list of lists of random variables.")
  else if negb (val_is_int order || val_is_str order) then
    hraise (Exn TypeError
              "'order' must be either an integer, 'even' or 'odd'.")
  else if negb (val_is_int log_base || val_is_float log_base) then
    hraise (Exn TypeError "'log_base' must be an int or a float.")
  else if val_is_str order && negb (val_in_even_odd order) then
    hraise (Exn ValueError
              "'order' must be either an integer, 'even' or 'odd'.")
  else
    (* Get the set. *)
    set_to_measure ← weakly_shared_content_obj dist list_of_rv_groups order;
    (* Measure the set. *)
    shared_information ← measure_obj dist set_to_measure log_base;
    (* Return this. *)
    hret shared_information.

End engine_on_heap.


(** ** The value an object holds

    [represents σ v p]: on the heap [σ], [v] is (a reference to an object
    that holds) the value [p], items included. *)

Fixpoint represents (σ : heap) (v : val) (p : pyval) {struct p} : Prop :=
  match p with
  | PyNone => v = VNone
  | PyBool b => v = VBool b
  | PyInt n => v = VInt n
  | PyFloat x => v = VFloat x
  | PyStr s => v = VStr s
  | PyList ps =>
      exists l items,
        v = VRef l /\ σ !! l = Some (OList items) /\
        (fix all (items : list val) (ps : list pyval) {struct ps} : Prop :=
           match ps, items with
           | [], [] => True
           | p' :: ps', item :: items' =>
               represents σ item p' /\ all items' ps'
           | _, _ => False
           end) items ps
  | PyTuple ps =>
      exists l items,
        v = VRef l /\ σ !! l = Some (OTuple items) /\
        (fix all (items : list val) (ps : list pyval) {struct ps} : Prop :=
           match ps, items with
           | [], [] => True
           | p' :: ps', item :: items' =>
               represents σ item p' /\ all items' ps'
           | _, _ => False
           end) items ps
  | PyAtomSet atoms => exists l, v = VRef l /\ σ !! l = Some (OAtomSet atoms)
  | PyDist d => exists l, v = VRef l /\ σ !! l = Some (ODist d)
  end.

(** The outcome of a call on the heap against an outcome by value. *)
Definition result_represents (σ : heap) (r : result val)
    (outcome : result pyval) : Prop :=
  match r, outcome with
  | Ok v, Ok p => represents σ v p
  | Raise e, Raise e' => e = e'
  | _, _ => False
  end.

(** A set of atoms as a value. *)
Definition atom_set_result (r : result (gset atom)) : result pyval :=
  atoms ← r; Ok (PyAtomSet atoms).

(** What the specification says of the collaborators: a call of one has no
    side effect (every object there was before the call is as it was), and
    its outcome is fixed by the values of its arguments. *)
Hypothesis content_obj_frame : forall dist group σ,
  σ ⊆ (content_obj dist group σ).2.
Hypothesis content_obj_value : forall dist group σ d p,
  represents σ dist (PyDist d) -> represents σ group p ->
  result_represents (content_obj dist group σ).2
    (content_obj dist group σ).1 (atom_set_result (content d p)).

Hypothesis get_n_atoms_obj_frame : forall atom_set order σ,
  σ ⊆ (get_n_atoms_obj atom_set order σ).2.
Hypothesis get_n_atoms_obj_value : forall atom_set order σ atoms p,
  represents σ atom_set (PyAtomSet atoms) -> represents σ order p ->
  result_represents (get_n_atoms_obj atom_set order σ).2
    (get_n_atoms_obj atom_set order σ).1
    (atom_set_result (get_n_atoms atoms p)).

Hypothesis upper_set_obj_frame : forall dist seeds σ,
  σ ⊆ (upper_set_obj dist seeds σ).2.
Hypothesis upper_set_obj_value : forall dist seeds σ d atoms,
  represents σ dist (PyDist d) -> represents σ seeds (PyAtomSet atoms) ->
  result_represents (upper_set_obj dist seeds σ).2
    (upper_set_obj dist seeds σ).1 (Ok (PyAtomSet (upper_set d atoms))).

Hypothesis measure_obj_frame : forall dist atom_set log_base σ,
  σ ⊆ (measure_obj dist atom_set log_base σ).2.
Hypothesis measure_obj_value : forall dist atom_set log_base σ d p b,
  represents σ dist (PyDist d) -> represents σ atom_set p ->
  represents σ log_base b ->
  result_represents (measure_obj dist atom_set log_base σ).2
    (measure_obj dist atom_set log_base σ).1 (measure d p b).

(** The arguments of a call hold given values on a heap. *)
Definition arguments_hold (σ : heap)
    (dist list_of_rv_groups order log_base : val)
    (pdist pgroups porder plog_base : pyval) : Prop :=
  represents σ dist pdist /\
  represents σ list_of_rv_groups pgroups /\
  represents σ order porder /\
  represents σ log_base plog_base.

(** ** Values on a growing heap *)

Lemma represents_list (σ : heap) (v : val) (ps : list pyval) :
  represents σ v (PyList ps) <->
  exists l items,
    v = VRef l /\ σ !! l = Some (OList items) /\
    Forall2 (represents σ) items ps.
Proof.
  simpl. split; intros (l & items & Hv & Hl & Hall); exists l, items;
    (split; [done|]; split; [done|]); clear Hv Hl; revert items Hall;
    induction ps as [|p ps IH]; intros [|item items] Hall;
    try done; try (by inversion Hall).
  - destruct Hall as [Hitem Hrest]. constructor; [done|by apply IH].
  - inversion Hall; subst. split; [done|by apply IH].
Qed.

Lemma represents_tuple (σ : heap) (v : val) (ps : list pyval) :
  represents σ v (PyTuple ps) <->
  exists l items,
    v = VRef l /\ σ !! l = Some (OTuple items) /\
    Forall2 (represents σ) items ps.
Proof.
  simpl. split; intros (l & items & Hv & Hl & Hall); exists l, items;
    (split; [done|]; split; [done|]); clear Hv Hl; revert items Hall;
    induction ps as [|p ps IH]; intros [|item items] Hall;
    try done; try (by inversion Hall).
  - destruct Hall as [Hitem Hrest]. constructor; [done|by apply IH].
  - inversion Hall; subst. split; [done|by apply IH].
Qed.

(** What an object holds stays what it is while the objects there are stay
    as they are. *)
Lemma represents_mono (σ σ' : heap) :
  σ ⊆ σ' -> forall (p : pyval) (v : val),
  represents σ v p -> represents σ' v p.
Proof.
  intros Hsub. fix IH 1. intros p v.
  destruct p as [| | | | |ps|ps|atoms|d]; try (simpl; done).
  - intros (l & items & -> & Hl & Hall). exists l, items.
    split; [done|]. split; [by eapply lookup_weaken|].
    clear Hl. revert items Hall. induction ps as [|p ps IHps];
      intros [|item items] Hall; try done.
    destruct Hall as [Hitem Hrest]. split; [by apply IH|by apply IHps].
  - intros (l & items & -> & Hl & Hall). exists l, items.
    split; [done|]. split; [by eapply lookup_weaken|].
    clear Hl. revert items Hall. induction ps as [|p ps IHps];
      intros [|item items] Hall; try done.
    destruct Hall as [Hitem Hrest]. split; [by apply IH|by apply IHps].
  - intros (l & -> & Hl). exists l. split; [done|by eapply lookup_weaken].
  - intros (l & -> & Hl). exists l. split; [done|by eapply lookup_weaken].
Qed.

(** ** The checks on the heap are the checks by value *)

Lemma obj_is_Distribution_represents (σ : heap) (v : val) (p : pyval) :
  represents σ v p -> obj_is_Distribution σ v = isinstance_Distribution p.
Proof.
  destruct p; simpl; try (by intros ->).
  - intros (l & its & -> & Hl & _). simpl. by rewrite Hl.
  - intros (l & its & -> & Hl & _). simpl. by rewrite Hl.
  - intros (l & -> & Hl). simpl. by rewrite Hl.
  - intros (l & -> & Hl). simpl. by rewrite Hl.
Qed.

Lemma obj_is_list_represents (σ : heap) (v : val) (p : pyval) :
  represents σ v p -> obj_is_list σ v = isinstance_list p.
Proof.
  destruct p; simpl; try (by intros ->).
  - intros (l & its & -> & Hl & _). simpl. by rewrite Hl.
  - intros (l & its & -> & Hl & _). simpl. by rewrite Hl.
  - intros (l & -> & Hl). simpl. by rewrite Hl.
  - intros (l & -> & Hl). simpl. by rewrite Hl.
Qed.

Lemma val_checks_represent (σ : heap) (v : val) (p : pyval) :
  represents σ v p ->
  val_is_int v = isinstance_int p /\
  val_is_str v = isinstance_str p /\
  val_is_float v = isinstance_float p /\
  val_in_even_odd v = in_even_odd p.
Proof.
  destruct p; simpl; try (by intros ->).
  - by intros (l & its & -> & _).
  - by intros (l & its & -> & _).
  - by intros (l & -> & _).
  - by intros (l & -> & _).
Qed.

(** ** Running a call *)

Lemma run_bind {A B} (m : prog A) (k : A -> prog B) (σ : heap) :
  (m ≫= k) σ =
    match m σ with
    | (Ok a, σ') => k a σ'
    | (Raise e, σ') => (Raise e, σ')
    end.
Proof. reflexivity. Qed.

Lemma frozenset_of_atom_set (σ : heap) (v : val) (atoms : gset atom) :
  represents σ v (PyAtomSet atoms) -> frozenset v σ = (Ok atoms, σ).
Proof. intros (l & -> & Hl). unfold frozenset. by rewrite Hl. Qed.

(** The comprehension calls [content] on the groups in turn, as the
    comprehension by value does, and changes no object. *)
Lemma collect_contents (dist : val) (d : Dist) (ps : list pyval) :
  forall (items : list val) (σ : heap),
  represents σ dist (PyDist d) ->
  Forall2 (represents σ) items ps ->
  σ ⊆ (collect (fun group => c ← content_obj dist group; frozenset c)
         items σ).2 /\
  (collect (fun group => c ← content_obj dist group; frozenset c)
     items σ).1 = mapM (content d) ps.
Proof.
  induction ps as [|p ps IH]; intros items σ Hdist Hall;
    inversion Hall as [|item p' items' ps' Hitem Hrest]; subst.
  - done.
  - cbn [collect]. rewrite !run_bind.
    pose proof (content_obj_frame dist item σ) as Hframe.
    pose proof (content_obj_value dist item σ d p Hdist Hitem) as Hvalue.
    destruct (content_obj dist item σ) as [r1 σ1]. simpl in Hframe, Hvalue.
    cbn [mapM]. destruct (content d p) as [c|e]; destruct r1 as [v|e'];
      simpl in Hvalue; try done.
    + rewrite (frozenset_of_atom_set σ1 v c Hvalue).
      destruct (IH items' σ1) as [Hframe' Hsame].
      { by apply (represents_mono σ σ1). }
      { eapply Forall2_impl; [exact Hrest|].
        intros v' p'. by apply (represents_mono σ σ1). }
      rewrite run_bind.
      destruct (collect _ items' σ1) as [r2 σ2]. simpl in Hframe', Hsame.
      subst r2. destruct (mapM (content d) ps) as [cs|e]; simpl.
      * split; [by etrans|done].
      * split; [by etrans|done].
    + subst e'. done.
Qed.

Section engine_on_heap_properties.

Context {set_impl : PySet (gset atom)}.

Lemma fresh_insert_subseteq (σ σ' : heap) (o : object) :
  σ ⊆ σ' -> σ ⊆ <[fresh (dom σ') := o]> σ'.
Proof.
  intros Hsub. etrans; [exact Hsub|].
  apply insert_subseteq, not_elem_of_dom, is_fresh.
Qed.

(** The set the comprehension builds is a new object. *)
Lemma relevant_contents_of_run
    (σ : heap) (dist : val) (d : Dist) (l : positive)
    (items : list val) (ps : list pyval) :
  represents σ dist (PyDist d) ->
  σ !! l = Some (OList items) ->
  Forall2 (represents σ) items ps ->
  exists σ1, σ ⊆ σ1 /\
    relevant_contents_of dist (VRef l) σ =
      match mapM (content d) ps with
      | Ok contents =>
          (Ok (VRef (fresh (dom σ1))),
           <[fresh (dom σ1) := OFrozensets (set_build contents)]> σ1)
      | Raise e => (Raise e, σ1)
      end.
Proof.
  intros Hdist Hl Hall.
  destruct (collect_contents dist d ps items σ Hdist Hall) as [Hframe Hsame].
  unfold relevant_contents_of. rewrite run_bind.
  unfold list_items. rewrite Hl. rewrite run_bind.
  destruct (collect _ items σ) as [r σ1]. simpl in Hframe, Hsame.
  exists σ1. split; [done|]. rewrite <- Hsame. by destruct r.
Qed.

(** A call of [weakly_shared_content] on the heap changes no object that was
    there, and its outcome is the outcome by value. *)
Lemma weakly_shared_content_obj_refines
    (σ : heap) (dist list_of_rv_groups order : val) (pd pg po : pyval) :
  represents σ dist pd ->
  represents σ list_of_rv_groups pg ->
  represents σ order po ->
  σ ⊆ (weakly_shared_content_obj dist list_of_rv_groups order σ).2 /\
  result_represents
    (weakly_shared_content_obj dist list_of_rv_groups order σ).2
    (weakly_shared_content_obj dist list_of_rv_groups order σ).1
    (weakly_shared_content pd pg po).
Proof.
  intros Hdist Hgroups Horder.
  unfold weakly_shared_content_obj. rewrite run_bind. unfold hread.
  rewrite (obj_is_Distribution_represents σ dist pd Hdist).
  rewrite (obj_is_list_represents σ list_of_rv_groups pg Hgroups).
  destruct (val_checks_represent σ order po Horder)
    as (-> & -> & _ & ->).
  destruct pd as [| | | | | | | |d]; try done.
  destruct pg as [| | | | |ps| | |]; try done.
  apply represents_list in Hgroups as (l & items & -> & Hl & Hall).
  unfold weakly_shared_content.
  cbn [isinstance_Distribution isinstance_list negb].
  destruct (negb (isinstance_int po || isinstance_str po)); [done|].
  destruct (isinstance_str po && negb (in_even_odd po)); [done|].
  rewrite run_bind.
  destruct (relevant_contents_of_run σ dist d l items ps Hdist Hl Hall)
    as (σ1 & Hsub1 & ->).
  destruct (mapM (content d) ps) as [contents|e]; [|done].
  cbn [mbind result_bind].
  set (l1 := fresh (dom σ1)).
  assert (σ1 !! l1 = None) as Hfresh1
    by apply not_elem_of_dom, is_fresh.
  rewrite run_bind. unfold set_pop_obj. rewrite lookup_insert_eq.
  destruct (set_pop (set_build contents)) as [[first rest]|].
  2:{ split; [|done]. etrans; [exact Hsub1|]. by apply insert_subseteq. }
  rewrite insert_insert_eq.
  assert (σ ⊆ <[l1 := OFrozensets rest]> σ1) as Hsub3.
  { etrans; [exact Hsub1|]. by apply insert_subseteq. }
  rewrite run_bind. unfold set_members. rewrite lookup_insert_eq.
  rewrite run_bind. unfold new_atom_set, halloc.
  set (σ3 := <[l1 := OFrozensets rest]> σ1) in *.
  set (l2 := fresh (dom σ3)).
  set (σ4 := <[l2 := OAtomSet (intersect_all first rest)]> σ3).
  assert (σ ⊆ σ4) as Hsub4 by (by apply fresh_insert_subseteq).
  rewrite run_bind.
  pose proof (get_n_atoms_obj_frame (VRef l2) order σ4) as Hframe5.
  pose proof (get_n_atoms_obj_value (VRef l2) order σ4
                (intersect_all first rest) po) as Hvalue5.
  destruct (get_n_atoms_obj (VRef l2) order σ4) as [r5 σ5].
  simpl in Hframe5, Hvalue5.
  assert (σ ⊆ σ5) as Hsub5 by (by etrans).
  specialize (Hvalue5 (ex_intro _ l2 (conj eq_refl (lookup_insert_eq _ _ _)))
                      (represents_mono σ σ4 Hsub4 po order Horder)).
  destruct (get_n_atoms (intersect_all first rest) po) as [filtered|e];
    destruct r5 as [v5|e5]; simpl in Hvalue5; try done.
  rewrite run_bind.
  pose proof (upper_set_obj_frame dist v5 σ5) as Hframe6.
  pose proof (upper_set_obj_value dist v5 σ5 d filtered
                (represents_mono σ σ5 Hsub5 (PyDist d) dist Hdist)
                Hvalue5) as Hvalue6.
  destruct (upper_set_obj dist v5 σ5) as [r6 σ6].
  simpl in Hframe6, Hvalue6.
  destruct r6 as [v6|e6]; simpl in Hvalue6; [|done].
  cbn [mbind result_bind]. simpl.
  split; [by etrans|done].
Qed.

(** So it is for [weakly_shared]. *)
Lemma weakly_shared_obj_refines
    (σ : heap) (dist list_of_rv_groups order log_base : val)
    (pd pg po pb : pyval) :
  represents σ dist pd ->
  represents σ list_of_rv_groups pg ->
  represents σ order po ->
  represents σ log_base pb ->
  σ ⊆ (weakly_shared_obj dist list_of_rv_groups order log_base σ).2 /\
  result_represents
    (weakly_shared_obj dist list_of_rv_groups order log_base σ).2
    (weakly_shared_obj dist list_of_rv_groups order log_base σ).1
    (weakly_shared pd pg po pb).
Proof.
  intros Hdist Hgroups Horder Hbase.
  pose proof (weakly_shared_content_obj_refines σ dist list_of_rv_groups
                order pd pg po Hdist Hgroups Horder) as [Hsub1 Hrep1].
  unfold weakly_shared_obj. rewrite run_bind. unfold hread.
  rewrite (obj_is_Distribution_represents σ dist pd Hdist).
  rewrite (obj_is_list_represents σ list_of_rv_groups pg Hgroups).
  destruct (val_checks_represent σ order po Horder)
    as (-> & -> & _ & ->).
  destruct (val_checks_represent σ log_base pb Hbase)
    as (-> & _ & -> & _).
  destruct pd as [| | | | | | | |d]; try done.
  destruct pg as [| | | | |ps| | |]; try done.
  unfold weakly_shared.
  cbn [isinstance_Distribution isinstance_list negb].
  destruct (negb (isinstance_int po || isinstance_str po)); [done|].
  destruct (negb (isinstance_int pb || isinstance_float pb)); [done|].
  destruct (isinstance_str po && negb (in_even_odd po)); [done|].
  rewrite run_bind.
  destruct (weakly_shared_content_obj dist list_of_rv_groups order σ)
    as [r1 σ1].
  cbn [fst snd] in Hsub1, Hrep1.
  destruct (weakly_shared_content (PyDist d) (PyList ps) po)
    as [shared|e]; destruct r1 as [v1|e1]; simpl in Hrep1; try done.
  rewrite run_bind.
  pose proof (measure_obj_frame dist v1 log_base σ1) as Hframe2.
  pose proof (measure_obj_value dist v1 log_base σ1 d shared pb
                (represents_mono σ σ1 Hsub1 (PyDist d) dist Hdist) Hrep1
                (represents_mono σ σ1 Hsub1 pb log_base Hbase)) as Hvalue2.
  destruct (measure_obj dist v1 log_base σ1) as [r2 σ2].
  simpl in Hframe2, Hvalue2.
  cbn [mbind result_bind].
  destruct (measure d shared pb) as [information|e];
    destruct r2 as [v2|e2]; simpl in Hvalue2; try done.
  - simpl. split; [by etrans|done].
  - simpl. split; [by etrans|done].
Qed.

End engine_on_heap_properties.

(** C7. A call of [weakly_shared_content] or of [weakly_shared] has no side
    effect and changes none of its arguments: every object that was on the
    heap before the call is as it was after it, so the arguments hold the
    values they held.  The outcome is fixed by the values of the arguments:
    two calls with arguments holding the same values, on whatever heaps and
    whichever member [pop()] picks and in whichever order the sets are
    visited in either, raise the same exception or return the same value.
    On a non-empty list of groups that have content sets and a valid order,
    what [weakly_shared_content] returns is a set of atoms, so not [None].
    The collaborators are taken to be as the specification has them, without
    side effects and determined by the values of their arguments. *)
Theorem weakly_shared_no_side_effects_deterministic
    (impl1 impl2 : PySet (gset atom)) (σ1 σ2 : heap)
    (dist list_of_rv_groups order log_base : val)
    (pdist pgroups porder plog_base : pyval) :
  arguments_hold σ1 dist list_of_rv_groups order log_base
    pdist pgroups porder plog_base ->
  arguments_hold σ2 dist list_of_rv_groups order log_base
    pdist pgroups porder plog_base ->
  (* no side effects, no argument changed *)
  (σ1 ⊆ (weakly_shared_content_obj (set_impl := impl1)
            dist list_of_rv_groups order σ1).2 /\
   arguments_hold
     (weakly_shared_content_obj (set_impl := impl1)
        dist list_of_rv_groups order σ1).2
     dist list_of_rv_groups order log_base pdist pgroups porder plog_base)
  /\
  (σ1 ⊆ (weakly_shared_obj (set_impl := impl1)
            dist list_of_rv_groups order log_base σ1).2 /\
   arguments_hold
     (weakly_shared_obj (set_impl := impl1)
        dist list_of_rv_groups order log_base σ1).2
     dist list_of_rv_groups order log_base pdist pgroups porder plog_base)
  /\
  (* the same outcome for the same arguments *)
  (exists outcome : result pyval,
     result_represents
       (weakly_shared_content_obj (set_impl := impl1)
          dist list_of_rv_groups order σ1).2
       (weakly_shared_content_obj (set_impl := impl1)
          dist list_of_rv_groups order σ1).1 outcome /\
     result_represents
       (weakly_shared_content_obj (set_impl := impl2)
          dist list_of_rv_groups order σ2).2
       (weakly_shared_content_obj (set_impl := impl2)
          dist list_of_rv_groups order σ2).1 outcome)
  /\
  (exists outcome : result pyval,
     result_represents
       (weakly_shared_obj (set_impl := impl1)
          dist list_of_rv_groups order log_base σ1).2
       (weakly_shared_obj (set_impl := impl1)
          dist list_of_rv_groups order log_base σ1).1 outcome /\
     result_represents
       (weakly_shared_obj (set_impl := impl2)
          dist list_of_rv_groups order log_base σ2).2
       (weakly_shared_obj (set_impl := impl2)
          dist list_of_rv_groups order log_base σ2).1 outcome)
  /\
  (* a set of atoms, not None *)
  (forall (d : Dist) (groups : list pyval),
     pdist = PyDist d -> pgroups = PyList groups ->
     groups <> [] -> valid_order porder = true ->
     Forall (fun g => is_Ok (content d g)) groups ->
     exists (l : positive) (atoms : gset atom),
       (weakly_shared_content_obj (set_impl := impl1)
          dist list_of_rv_groups order σ1).1 = Ok (VRef l) /\
       (weakly_shared_content_obj (set_impl := impl1)
          dist list_of_rv_groups order σ1).2 !! l = Some (OAtomSet atoms)).
Proof.
  intros (Hd1 & Hg1 & Ho1 & Hb1) (Hd2 & Hg2 & Ho2 & Hb2).
  pose proof (weakly_shared_content_obj_refines (set_impl := impl1)
                σ1 dist list_of_rv_groups order pdist pgroups porder
                Hd1 Hg1 Ho1) as [Hsub_c1 Hrep_c1].
  pose proof (weakly_shared_content_obj_refines (set_impl := impl2)
                σ2 dist list_of_rv_groups order pdist pgroups porder
                Hd2 Hg2 Ho2) as [_ Hrep_c2].
  pose proof (weakly_shared_obj_refines (set_impl := impl1)
                σ1 dist list_of_rv_groups order log_base
                pdist pgroups porder plog_base Hd1 Hg1 Ho1 Hb1)
    as [Hsub_m1 Hrep_m1].
  pose proof (weakly_shared_obj_refines (set_impl := impl2)
                σ2 dist list_of_rv_groups order log_base
                pdist pgroups porder plog_base Hd2 Hg2 Ho2 Hb2)
    as [_ Hrep_m2].
  destruct (weakly_shared_any_set_implementation impl1 impl2
              pdist pgroups porder plog_base)
    as (Hsame_c & Hsame_m & Hset).
  split; [|split; [|split; [|split]]].
  - split; [done|]. repeat split; by eapply represents_mono.
  - split; [done|]. repeat split; by eapply represents_mono.
  - eexists. split; [exact Hrep_c1|]. rewrite Hsame_c. exact Hrep_c2.
  - eexists. split; [exact Hrep_m1|]. rewrite Hsame_m. exact Hrep_m2.
  - intros d groups -> -> Hne Horder Hall.
    destruct (Hset d groups eq_refl eq_refl Hne Horder Hall)
      as [atoms Hatoms].
    rewrite Hatoms in Hrep_c1.
    destruct (weakly_shared_content_obj dist list_of_rv_groups order σ1)
      as [[v|e] σ']; simpl in Hrep_c1; [|done].
    destruct Hrep_c1 as (l & -> & Hl). by exists l, atoms.
Qed.

End object_store.

End log_decomp.

(** ** A worked instance

    Four variables over one distribution; the atoms of its lattice are
    numbered 1 to 6, and [content] of a group is the union of what its
    variables carry. *)

Module FourVariables.

Inductive dist : Type := four_variables.

Abbreviation value := (@pyval nat _ _ dist Z).

Definition variable_atoms (name : string) : option (gset nat) :=
  if String.eqb name "X" then Some {[1; 2; 4]}
  else if String.eqb name "Y" then Some {[2; 3; 4]}
  else if String.eqb name "Z" then Some {[4; 5]}
  else if String.eqb name "W" then Some {[6]}
  else None.

Fixpoint group_atoms (names : list value) : result (gset nat) :=
  match names with
  | [] => Ok ∅
  | PyStr name :: rest =>
      match variable_atoms name with
      | Some atoms => found ← group_atoms rest; Ok (atoms ∪ found)
      | None => Raise (Exn KeyError name)
      end
  | _ :: _ => Raise (Exn TypeError "a variable is named by a string")
  end.

(** [content] takes any object that is not a list or a tuple for the group
    without variables. *)
Definition content (d : dist) (group : value) : result (gset nat) :=
  match group with
  | PyList names | PyTuple names => group_atoms names
  | _ => Ok ∅
  end.

Definition lattice (d : dist) : gset nat := {[1; 2; 3; 4; 5; 6]}.

Definition atom_order (a : nat) : nat :=
  match a with
  | 1 => 1
  | 2 | 3 | 5 => 2
  | 4 => 3
  | _ => 4
  end.

Definition is_above (d : dist) (s a : nat) : bool := Nat.leb s a.

(** A [measure] that counts the atoms. *)
Definition measure (d : dist) (atom_set log_base : value) : result value :=
  match atom_set with
  | PyAtomSet atoms => Ok (PyFloat (Z.of_nat (size atoms)))
  | _ => Raise (Exn TypeError "not a set of atoms")
  end.

Definition iter_foreign (v : value) : result (list value) :=
  Raise (Exn TypeError "object is not iterable").

Definition names (l : list string) : value := PyList (map PyStr l).

Definition d : dist := four_variables.
Definition X : value := names ["X"].
Definition Y : value := names ["Y"].
Definition Z : value := names ["Z"].
Definition W : value := names ["W"].

End FourVariables.

(** ** The properties at the worked instance *)

Import FourVariables.

(** The two implementations of [set] agree on what [X] and [Y] share. *)
Example shared_by_X_and_Y_insertion_order :
  weakly_shared_content content lattice atom_order is_above
    (set_impl := insertion_order) (PyDist d) (PyList [X; Y]) (PyInt 2) =
    Ok (PyAtomSet {[2; 3; 4; 5; 6]}).
Proof. vm_compute. reflexivity. Qed.

Example shared_by_X_and_Y_reversing_order :
  weakly_shared_content content lattice atom_order is_above
    (set_impl := reversing_order) (PyDist d) (PyList [X; Y]) (PyInt 2) =
    Ok (PyAtomSet {[2; 3; 4; 5; 6]}).
Proof. vm_compute. reflexivity. Qed.

Example shared_by_X_Y_Z_odd :
  weakly_shared_content content lattice atom_order is_above
    (set_impl := reversing_order) (PyDist d) (PyList [X; Y; Z])
    (PyStr "odd") = Ok (PyAtomSet {[4; 5; 6]}).
Proof. vm_compute. reflexivity. Qed.

Example measure_of_shared_by_X_and_Y :
  weakly_shared content measure lattice atom_order is_above
    (set_impl := insertion_order) (PyDist d) (PyList [X; Y]) (PyInt 2)
    (PyFloat 2%Z) = Ok (PyFloat 5%Z).
Proof. vm_compute. reflexivity. Qed.

(** An unknown variable: the exception of [content] leaves the call. *)
Example unknown_variable_propagates :
  weakly_shared_content content lattice atom_order is_above
    (set_impl := insertion_order) (PyDist d) (PyList [X; names ["V"]])
    (PyInt 2) = Raise (Exn KeyError "V").
Proof. vm_compute. reflexivity. Qed.

(** The adapter on sources given as a string of one-letter names. *)
Example adapter_on_a_string_of_names :
  PID_LogDec_measure content measure iter_foreign lattice atom_order is_above
    (set_impl := insertion_order)
    (PyDist d) (PyStr "XY") (PyStr "Z") (PyInt 3) (PyStr "shared_generator") =
    Ok (PyFloat 3%Z).
Proof. vm_compute. reflexivity. Qed.

(** The adapter with its default method. *)
Example adapter_default_method :
  PID_LogDec_measure content measure iter_foreign lattice atom_order is_above
    (set_impl := insertion_order)
    (PyDist d) (PyList [X; Y]) Z (PyInt 2) (PyStr "cross") = Ok PyNone.
Proof. vm_compute. reflexivity. Qed.

Lemma weakly_shared_content_upper_set_of_common_content_witness :
  valid_order (PyInt 2 : value) = true /\
  exists common filtered : gset nat,
    (forall a, a ∈ common <->
       forall c, c ∈ [({[1; 2; 4]} : gset nat); {[2; 3; 4]}] -> a ∈ c) /\
    get_n_atoms atom_order common (PyInt 2 : value) = Ok filtered /\
    weakly_shared_content content lattice atom_order is_above
      (set_impl := insertion_order) (PyDist d) (PyList [X; Y]) (PyInt 2) =
      Ok (PyAtomSet (upper_set lattice is_above d filtered)).
Proof.
  split; [reflexivity|].
  destruct (weakly_shared_content_upper_set_of_common_content
              content lattice atom_order is_above
              (set_impl := insertion_order) d (PyInt 2) eq_refl)
    as [Hgeneral _].
  apply Hgeneral.
  - discriminate.
  - repeat constructor.
Defined.

Lemma weakly_shared_content_group_order_irrelevant_witness :
  is_Ok (content d X) /\ is_Ok (content d Z) /\
  weakly_shared_content content lattice atom_order is_above
    (set_impl := insertion_order) (PyDist d) (PyList [X; Z]) (PyStr "odd") =
  weakly_shared_content content lattice atom_order is_above
    (set_impl := insertion_order) (PyDist d) (PyList [Z; X]) (PyStr "odd").
Proof.
  assert (is_Ok (content d X)) as HX by (eexists; reflexivity).
  assert (is_Ok (content d Z)) as HZ by (eexists; reflexivity).
  split; [exact HX|]. split; [exact HZ|].
  destruct (weakly_shared_content_group_order_irrelevant
              content lattice atom_order is_above
              (set_impl := insertion_order) d (PyStr "odd"))
    as [Hswap _].
  exact (Hswap X Z HX HZ).
Defined.

Lemma validation_rejects_wrong_arguments_witness :
  (exists msg,
     weakly_shared_content content lattice atom_order is_above
       (set_impl := insertion_order) (PyDist d) (PyStr "not-a-list")
       (PyInt 2) = Raise (Exn TypeError msg)) /\
  (exists msg,
     weakly_shared_content content lattice atom_order is_above
       (set_impl := insertion_order) (PyDist d) (PyList [X; Y])
       (PyStr "bogus") = Raise (Exn ValueError msg)) /\
  (exists msg,
     weakly_shared content measure lattice atom_order is_above
       (set_impl := insertion_order) (PyDist d) (PyList [X; Y])
       (PyInt 2) (PyStr "x") = Raise (Exn TypeError msg)) /\
  (exists msg,
     weakly_shared content measure lattice atom_order is_above
       (set_impl := insertion_order) (PyDist d) (PyList [X; Y])
       (PyStr "bogus") (PyInt 2) = Raise (Exn ValueError msg)).
Proof.
  split; [|split; [|split]].
  - apply (validation_rejects_wrong_arguments
             content measure lattice atom_order is_above
             (set_impl := insertion_order)
             (PyDist d) (PyStr "not-a-list") (PyInt 2) (PyInt 2)).
    right. left. reflexivity.
  - apply (validation_rejects_wrong_arguments
             content measure lattice atom_order is_above
             (set_impl := insertion_order)
             (PyDist d) (PyList [X; Y]) (PyStr "bogus") (PyInt 2));
      reflexivity.
  - apply (validation_rejects_wrong_arguments
             content measure lattice atom_order is_above
             (set_impl := insertion_order)
             (PyDist d) (PyList [X; Y]) (PyInt 2) (PyStr "x")).
    right. right. right. reflexivity.
  - apply (validation_rejects_wrong_arguments
             content measure lattice atom_order is_above
             (set_impl := insertion_order)
             (PyDist d) (PyList [X; Y]) (PyStr "bogus") (PyInt 2));
      reflexivity.
Defined.

Lemma disjoint_contents_share_nothing_witness :
  get_n_atoms atom_order ∅ (PyInt 2 : value) = Ok ∅ /\
  weakly_shared_content content lattice atom_order is_above
    (set_impl := insertion_order) (PyDist d) (PyList [X; W]) (PyInt 2) =
    Ok (PyAtomSet (upper_set lattice is_above d ∅)) /\
  weakly_shared content measure lattice atom_order is_above
    (set_impl := insertion_order) (PyDist d) (PyList [X; W]) (PyInt 2)
    (PyInt 2) = Ok (PyFloat 0%Z).
Proof.
  destruct (disjoint_contents_share_nothing
              content measure lattice atom_order is_above 0%Z
              (set_impl := insertion_order)
              d [X; W] [{[1; 2; 4]}; {[6]}] (PyInt 2) (PyInt 2))
    as (Hempty & Hcontent & Hmeasure).
  - reflexivity.
  - repeat constructor.
  - simpl. lia.
  - intros [|[|i]] [|[|j]] ci cj Hij Hi Hj; simpl in Hi, Hj;
      try discriminate; try congruence;
      injection Hi as <-; injection Hj as <-;
      apply (bool_decide_unpack _); vm_compute; exact I.
  - split; [exact Hempty|]. split; [exact Hcontent|].
    apply Hmeasure; reflexivity.
Defined.

Lemma PID_LogDec_measure_delegates_witness :
  PID_LogDec_measure content measure iter_foreign lattice atom_order is_above
    (set_impl := insertion_order)
    (PyDist d) (PyTuple [PyTuple [PyStr "X"]; PyStr "Y"]) (PyStr "Z")
    (PyInt 2) (PyStr "shared_generator") =
  weakly_shared content measure lattice atom_order is_above
    (set_impl := insertion_order)
    (PyDist d) (PyList ([X; Y] ++ [Z])) (PyInt 2) (PyInt 2).
Proof.
  apply (PID_LogDec_measure_delegates
           content measure iter_foreign lattice atom_order is_above
           (set_impl := insertion_order)
           (PyDist d) (PyTuple [PyTuple [PyStr "X"]; PyStr "Y"]) (PyStr "Z")
           (PyInt 2) [PyTuple [PyStr "X"]; PyStr "Y"] [X; Y] Z);
    reflexivity.
Defined.

Lemma weakly_shared_content_no_groups_KeyError_witness :
  valid_order (PyStr "even" : value) = true /\
  weakly_shared_content content lattice atom_order is_above
    (set_impl := insertion_order) (PyDist d) (PyList []) (PyStr "even") =
    Raise (Exn KeyError "pop from an empty set").
Proof.
  split; [reflexivity|].
  apply (weakly_shared_content_no_groups_KeyError
           content lattice atom_order is_above
           (set_impl := insertion_order) d (PyStr "even")).
  reflexivity.
Defined.

Lemma weakly_shared_content_duplicate_group_witness :
  weakly_shared_content content lattice atom_order is_above
    (set_impl := insertion_order)
    (PyDist d) (PyList ([X; Y] ++ [X])) (PyInt 2) =
  weakly_shared_content content lattice atom_order is_above
    (set_impl := insertion_order) (PyDist d) (PyList [X; Y]) (PyInt 2).
Proof.
  apply (weakly_shared_content_duplicate_group
           content lattice atom_order is_above
           (set_impl := insertion_order) d [X; Y] X (PyInt 2)).
  left.
Defined.

(** ** The further properties at the worked instance *)

Lemma weakly_shared_content_depends_on_content_sets_witness :
  weakly_shared_content content lattice atom_order is_above
    (set_impl := insertion_order) (PyDist d) (PyList [X; Y]) (PyInt 2) =
  weakly_shared_content content lattice atom_order is_above
    (set_impl := insertion_order) (PyDist d)
    (PyList [PyTuple [PyStr "Y"]; X; Y]) (PyInt 2).
Proof.
  apply (weakly_shared_content_depends_on_content_sets
           content lattice atom_order is_above
           (set_impl := insertion_order) d
           [X; Y] [PyTuple [PyStr "Y"]; X; Y]
           [{[1; 2; 4]}; {[2; 3; 4]}]
           [{[2; 3; 4]}; {[1; 2; 4]}; {[2; 3; 4]}] (PyInt 2)).
  - repeat constructor.
  - repeat constructor.
  - intros c. rewrite !elem_of_cons, !elem_of_nil. tauto.
Defined.

Lemma weakly_shared_content_superset_group_redundant_witness :
  weakly_shared_content content lattice atom_order is_above
    (set_impl := insertion_order) (PyDist d)
    (PyList ([X; Y] ++ [names ["X"; "Z"]])) (PyInt 2) =
  weakly_shared_content content lattice atom_order is_above
    (set_impl := insertion_order) (PyDist d) (PyList [X; Y]) (PyInt 2).
Proof.
  apply (weakly_shared_content_superset_group_redundant
           content lattice atom_order is_above
           (set_impl := insertion_order) d
           [X; Y] [{[1; 2; 4]}; {[2; 3; 4]}]
           (names ["X"; "Z"]) {[1; 2; 4; 5]} {[1; 2; 4]} (PyInt 2)).
  - repeat constructor.
  - vm_compute. reflexivity.
  - left.
  - apply (bool_decide_unpack _). vm_compute. exact I.
Defined.

Lemma weakly_shared_content_smallest_group_decides_witness :
  weakly_shared_content content lattice atom_order is_above
    (set_impl := insertion_order) (PyDist d)
    (PyList [names ["X"; "Y"]; X; names ["X"; "Z"]]) (PyStr "odd") =
  weakly_shared_content content lattice atom_order is_above
    (set_impl := insertion_order) (PyDist d) (PyList [X]) (PyStr "odd").
Proof.
  apply (weakly_shared_content_smallest_group_decides
           content lattice atom_order is_above
           (set_impl := insertion_order) d
           [names ["X"; "Y"]; X; names ["X"; "Z"]]
           [{[1; 2; 3; 4]}; {[1; 2; 4]}; {[1; 2; 4; 5]}]
           X {[1; 2; 4]} (PyStr "odd")).
  - repeat constructor; vm_compute; reflexivity.
  - right. left.
  - reflexivity.
  - intros c Hc. rewrite !elem_of_cons, elem_of_nil in Hc.
    destruct Hc as [->|[->|[->|[]]]];
      apply (bool_decide_unpack _); vm_compute; exact I.
Defined.

Lemma first_failing_group_decides_witness :
  weakly_shared_content content lattice atom_order is_above
    (set_impl := insertion_order) (PyDist d)
    (PyList ([X] ++ names ["V"] :: [names ["Q"]])) (PyInt 2) =
    Raise (Exn KeyError "V") /\
  weakly_shared content measure lattice atom_order is_above
    (set_impl := insertion_order) (PyDist d)
    (PyList ([X] ++ names ["V"] :: [names ["Q"]])) (PyInt 2) (PyInt 2) =
    Raise (Exn KeyError "V").
Proof.
  destruct (first_failing_group_decides
              content measure lattice atom_order is_above
              (set_impl := insertion_order) d
              [X] (names ["V"]) [names ["Q"]] (PyInt 2) (PyInt 2)
              (Exn KeyError "V")) as [Hcontent Hmeasure].
  - reflexivity.
  - repeat constructor. eexists. reflexivity.
  - reflexivity.
  - split; [exact Hcontent|]. apply Hmeasure. reflexivity.
Defined.

Lemma weakly_shared_measures_shared_content_witness :
  weakly_shared content measure lattice atom_order is_above
    (set_impl := insertion_order) (PyDist d) (PyList []) (PyInt 2)
    (PyFloat 2%Z) = Raise (Exn KeyError "pop from an empty set").
Proof.
  destruct (weakly_shared_measures_shared_content
              content measure lattice atom_order is_above
              (set_impl := insertion_order)
              (PyDist d) (PyList []) (PyInt 2) (PyFloat 2%Z))
    as [Hfails _].
  - reflexivity.
  - apply Hfails. reflexivity.
Defined.

Lemma log_base_checked_before_order_value_witness :
  weakly_shared content measure lattice atom_order is_above
    (set_impl := insertion_order) (PyDist d) (PyList [X; Y])
    (PyStr "bogus") (PyStr "x") =
    Raise (Exn TypeError "'log_base' must be an int or a float.") /\
  weakly_shared_content content lattice atom_order is_above
    (set_impl := insertion_order) (PyDist d) (PyList [X; Y])
    (PyStr "bogus") =
    Raise (Exn ValueError
             "'order' must be either an integer, 'even' or 'odd'.").
Proof.
  destruct (log_base_checked_before_order_value
              content measure lattice atom_order is_above
              (set_impl := insertion_order) d [X; Y]
              (PyStr "bogus") (PyStr "x")) as [Hbase Horder].
  - reflexivity.
  - reflexivity.
  - split; [exact Hbase|]. apply Horder. reflexivity.
Defined.

Lemma PID_LogDec_measure_other_method_None_witness :
  PID_LogDec_measure content measure iter_foreign lattice atom_order is_above
    (set_impl := insertion_order)
    PyNone (PyList [X; Y]) (PyInt 5) (PyStr "bogus")
    (PyStr "shared-generator") = Ok PyNone.
Proof.
  apply (PID_LogDec_measure_other_method_None
           content measure iter_foreign lattice atom_order is_above
           (set_impl := insertion_order)
           PyNone (PyList [X; Y]) (PyInt 5) (PyStr "bogus")
           (PyStr "shared-generator") [X; Y] [X; Y]);
    reflexivity.
Defined.

Lemma PID_LogDec_measure_source_conversion_first_witness :
  PID_LogDec_measure content measure iter_foreign lattice atom_order is_above
    (set_impl := insertion_order)
    (PyDist d) (PyInt 3) Z (PyInt 2) (PyStr "cross") =
    Raise (Exn TypeError "'int' object is not iterable") /\
  PID_LogDec_measure content measure iter_foreign lattice atom_order is_above
    (set_impl := insertion_order)
    (PyDist d) (PyList ([X] ++ PyInt 1 :: [PyNone])) Z (PyInt 2)
    (PyStr "cross") =
    Raise (Exn TypeError "'int' object is not iterable").
Proof.
  split.
  - apply (PID_LogDec_measure_source_conversion_first
             content measure iter_foreign lattice atom_order is_above
             (set_impl := insertion_order)
             (PyDist d) (PyInt 3) Z (PyInt 2) (PyStr "cross")
             (Exn TypeError "'int' object is not iterable")).
    reflexivity.
  - destruct (PID_LogDec_measure_source_conversion_first
                content measure iter_foreign lattice atom_order is_above
                (set_impl := insertion_order)
                (PyDist d) (PyList ([X] ++ PyInt 1 :: [PyNone])) Z (PyInt 2)
                (PyStr "cross")
                (Exn TypeError "'int' object is not iterable"))
      as [_ Hitem].
    apply (Hitem [X] (PyInt 1) [PyNone]).
    + reflexivity.
    + repeat constructor. eexists. reflexivity.
    + reflexivity.
Defined.

Lemma PID_LogDec_measure_items_only_witness :
  PID_LogDec_measure content measure iter_foreign lattice atom_order is_above
    (set_impl := insertion_order)
    (PyDist d) (PyTuple [PyTuple [PyStr "X"]; PyTuple [PyStr "Y"]])
    (PyTuple [PyStr "Z"]) (PyInt 3) (PyStr "shared_generator") =
  PID_LogDec_measure content measure iter_foreign lattice atom_order is_above
    (set_impl := insertion_order)
    (PyDist d) (PyList [X; Y]) Z (PyInt 3) (PyStr "shared_generator").
Proof.
  apply (PID_LogDec_measure_items_only
           content measure iter_foreign lattice atom_order is_above
           (set_impl := insertion_order) (PyDist d)
           (PyTuple [PyTuple [PyStr "X"]; PyTuple [PyStr "Y"]])
           (PyList [X; Y]) (PyTuple [PyStr "Z"]) Z
           (PyInt 3) (PyStr "shared_generator")
           [PyTuple [PyStr "X"]; PyTuple [PyStr "Y"]] [X; Y]).
  - reflexivity.
  - reflexivity.
  - repeat constructor.
  - reflexivity.
Defined.

Lemma PID_LogDec_measure_never_pops_empty_set_witness :
  exists common : gset nat,
    (forall a, a ∈ common <->
       forall c, c ∈ [({[4; 5]} : gset nat)] -> a ∈ c) /\
    PID_LogDec_measure content measure iter_foreign lattice atom_order
      is_above (set_impl := insertion_order)
      (PyDist d) (PyList []) Z (PyInt 2) (PyStr "shared_generator") =
      filtered ← get_n_atoms atom_order common (PyInt 2 : value);
      measure d (PyAtomSet (upper_set lattice is_above d filtered))
        (PyInt 2).
Proof.
  apply (PID_LogDec_measure_never_pops_empty_set
           content measure iter_foreign lattice atom_order is_above
           (set_impl := insertion_order)
           d (PyList []) Z (PyInt 2) [] [] Z [{[4; 5]}]).
  - reflexivity.
  - reflexivity.
  - reflexivity.
  - reflexivity.
  - repeat constructor.
Defined.

Lemma weakly_shared_content_of_two_parts_witness :
  exists common1 common2 : gset nat,
    (forall a, a ∈ common1 <->
       forall c, c ∈ [({[1; 2; 4]} : gset nat); {[2; 3; 4]}] -> a ∈ c) /\
    (forall a, a ∈ common2 <->
       forall c, c ∈ [({[4; 5]} : gset nat)] -> a ∈ c) /\
    weakly_shared_content content lattice atom_order is_above
      (set_impl := insertion_order) (PyDist d) (PyList [X; Y])
      (PyStr "odd") =
      filter_then_close lattice atom_order is_above d common1 (PyStr "odd")
    /\
    weakly_shared_content content lattice atom_order is_above
      (set_impl := insertion_order) (PyDist d) (PyList [Z]) (PyStr "odd") =
      filter_then_close lattice atom_order is_above d common2 (PyStr "odd")
    /\
    weakly_shared_content content lattice atom_order is_above
      (set_impl := insertion_order) (PyDist d) (PyList ([X; Y] ++ [Z]))
      (PyStr "odd") =
      filter_then_close lattice atom_order is_above d (common1 ∩ common2)
        (PyStr "odd").
Proof.
  apply (weakly_shared_content_of_two_parts
           content lattice atom_order is_above
           (set_impl := insertion_order) d [X; Y] [Z]
           [{[1; 2; 4]}; {[2; 3; 4]}] [{[4; 5]}] (PyStr "odd")).
  - reflexivity.
  - discriminate.
  - discriminate.
  - repeat constructor.
  - repeat constructor.
Defined.

(** ** The worked instance on the heap

    Collaborators that read their arguments from the heap, return their
    sets as new objects and change nothing else. *)

Module FourVariablesOnHeap.

Import FourVariables.

Abbreviation hval := (@val BinNums.Z).
Abbreviation hobject := (@object nat _ _ dist BinNums.Z).
Abbreviation hheap := (gmap positive hobject).
Abbreviation hprog := (@prog nat _ _ dist BinNums.Z).

Definition return_atom_set (r : result (gset nat)) : hprog hval := fun σ =>
  match r with
  | Ok atoms => halloc (OAtomSet atoms) σ
  | Raise e => (Raise e, σ)
  end.

Definition atoms_at (σ : hheap) (v : hval) : option (gset nat) :=
  match v with
  | VRef l => match σ !! l with Some (OAtomSet atoms) => Some atoms | _ => None end
  | _ => None
  end.

(** A scalar as a value; an object is no order. *)
Definition scalar (v : hval) : value :=
  match v with
  | VNone | VRef _ => PyNone
  | VBool b => PyBool b
  | VInt n => PyInt n
  | VFloat x => PyFloat x
  | VStr s => PyStr s
  end.

Fixpoint group_atoms_obj (names : list hval) : result (gset nat) :=
  match names with
  | [] => Ok ∅
  | VStr name :: rest =>
      match variable_atoms name with
      | Some atoms => found ← group_atoms_obj rest; Ok (atoms ∪ found)
      | None => Raise (Exn KeyError name)
      end
  | _ :: _ => Raise (Exn TypeError "a variable is named by a string")
  end.

Definition content_obj (dist group : hval) : hprog hval := fun σ =>
  return_atom_set
    match group with
    | VRef l =>
        match σ !! l with
        | Some (OList names) | Some (OTuple names) => group_atoms_obj names
        | _ => Ok ∅
        end
    | _ => Ok ∅
    end σ.

Definition get_n_atoms_obj (atom_set order : hval) : hprog hval := fun σ =>
  match atoms_at σ atom_set with
  | Some atoms =>
      return_atom_set (get_n_atoms atom_order atoms (scalar order)) σ
  | None => (Raise (Exn TypeError "not a set of atoms"), σ)
  end.

Definition upper_set_obj (dist seeds : hval) : hprog hval := fun σ =>
  match atoms_at σ seeds with
  | Some atoms =>
      halloc (OAtomSet (upper_set lattice is_above four_variables atoms)) σ
  | None => (Raise (Exn TypeError "not a set of atoms"), σ)
  end.

Definition measure_obj (dist atom_set log_base : hval) : hprog hval :=
  fun σ =>
  match atoms_at σ atom_set with
  | Some atoms => (Ok (VFloat (Z.of_nat (size atoms))), σ)
  | None => (Raise (Exn TypeError "not a set of atoms"), σ)
  end.

(** A heap with the distribution at 1, the groups [["X"]] and [["Y"]] at 2
    and 3 and the list of the two at 4. *)
Definition example_heap : hheap :=
  <[4%positive := OList [VRef 2; VRef 3]]>
    (<[3%positive := OList [VStr "Y"]]>
       (<[2%positive := OList [VStr "X"]]>
          (<[1%positive := ODist four_variables]> ∅))).

(** The arguments of the calls below, and the values they hold. *)
Definition dist_ref : hval := VRef 1.
Definition groups_ref : hval := VRef 4.

(** A first call, and a second one on the heap the first one leaves, with
    the other implementation of [set]. *)
Definition first_call : result hval * hheap :=
  weakly_shared_content_obj content_obj get_n_atoms_obj upper_set_obj
    (set_impl := insertion_order) dist_ref groups_ref (VInt 2) example_heap.

Definition second_call : result hval * hheap :=
  weakly_shared_content_obj content_obj get_n_atoms_obj upper_set_obj
    (set_impl := reversing_order) dist_ref groups_ref (VInt 2) first_call.2.

End FourVariablesOnHeap.

Import FourVariablesOnHeap.

Lemma return_atom_set_frame (r : result (gset nat)) (σ : hheap) :
  σ ⊆ (return_atom_set r σ).2.
Proof.
  destruct r as [atoms|e]; simpl; [|done].
  apply insert_subseteq, not_elem_of_dom, is_fresh.
Qed.

Lemma return_atom_set_value (r : result (gset nat)) (σ : hheap) :
  result_represents (return_atom_set r σ).2 (return_atom_set r σ).1
    (atom_set_result r).
Proof.
  destruct r as [atoms|e]; simpl; [|done].
  eexists. split; [done|]. apply lookup_insert_eq.
Qed.

Lemma atoms_at_represents (σ : hheap) (v : hval) (p : value) :
  represents σ v p ->
  atoms_at σ v = match p with PyAtomSet atoms => Some atoms | _ => None end.
Proof.
  destruct p; simpl; try (by intros ->).
  - intros (l & its & -> & Hl & _). simpl. by rewrite Hl.
  - intros (l & its & -> & Hl & _). simpl. by rewrite Hl.
  - intros (l & -> & Hl). simpl. by rewrite Hl.
  - intros (l & -> & Hl). simpl. by rewrite Hl.
Qed.

Lemma group_atoms_obj_represents (σ : hheap)
    (names : list hval) (ps : list value) :
  Forall2 (represents σ) names ps -> group_atoms_obj names = group_atoms ps.
Proof.
  induction 1 as [|v p names ps Hv _ IH]; [done|].
  destruct p; simpl in Hv;
    try (subst v; simpl; try rewrite IH; done);
    try (destruct Hv as (l & its & -> & _); done);
    try (destruct Hv as (l & -> & _); done).
Qed.

Lemma content_obj_frame_holds (dist group : hval) (σ : hheap) :
  σ ⊆ (content_obj dist group σ).2.
Proof. apply return_atom_set_frame. Qed.

Lemma content_obj_value_holds
    (dist group : hval) (σ : hheap) (d : FourVariables.dist) (p : value) :
  represents σ dist (PyDist d) -> represents σ group p ->
  result_represents (content_obj dist group σ).2 (content_obj dist group σ).1
    (atom_set_result (content d p)).
Proof.
  intros _ Hgroup. unfold content_obj.
  match goal with
  | |- context [return_atom_set ?r σ] =>
      assert (r = content d p) as ->; [|apply return_atom_set_value]
  end.
  destruct p; simpl in Hgroup; try (by subst group).
  - apply represents_list in Hgroup as (l & its & -> & Hl & Hall).
    rewrite Hl. by apply (group_atoms_obj_represents σ).
  - apply represents_tuple in Hgroup as (l & its & -> & Hl & Hall).
    rewrite Hl. by apply (group_atoms_obj_represents σ).
  - destruct Hgroup as (l & -> & Hl). by rewrite Hl.
  - destruct Hgroup as (l & -> & Hl). by rewrite Hl.
Qed.

Lemma get_n_atoms_obj_frame_holds (atom_set order : hval) (σ : hheap) :
  σ ⊆ (get_n_atoms_obj atom_set order σ).2.
Proof.
  unfold get_n_atoms_obj. destruct (atoms_at σ atom_set); [|done].
  apply return_atom_set_frame.
Qed.

Lemma get_n_atoms_obj_value_holds
    (atom_set order : hval) (σ : hheap) (atoms : gset nat) (p : value) :
  represents σ atom_set (PyAtomSet atoms) -> represents σ order p ->
  result_represents (get_n_atoms_obj atom_set order σ).2
    (get_n_atoms_obj atom_set order σ).1
    (atom_set_result (get_n_atoms atom_order atoms p)).
Proof.
  intros Hset Horder. unfold get_n_atoms_obj.
  rewrite (atoms_at_represents σ atom_set _ Hset).
  assert (get_n_atoms atom_order atoms (scalar order) =
          get_n_atoms atom_order atoms p) as ->;
    [|apply return_atom_set_value].
  destruct p; simpl in Horder; try (by subst order).
  - by destruct Horder as (l & its & -> & _).
  - by destruct Horder as (l & its & -> & _).
  - by destruct Horder as (l & -> & _).
  - by destruct Horder as (l & -> & _).
Qed.

Lemma upper_set_obj_frame_holds (dist seeds : hval) (σ : hheap) :
  σ ⊆ (upper_set_obj dist seeds σ).2.
Proof.
  unfold upper_set_obj. destruct (atoms_at σ seeds); [|done].
  apply insert_subseteq, not_elem_of_dom, is_fresh.
Qed.

Lemma upper_set_obj_value_holds
    (dist seeds : hval) (σ : hheap) (d : FourVariables.dist)
    (atoms : gset nat) :
  represents σ dist (PyDist d) -> represents σ seeds (PyAtomSet atoms) ->
  result_represents (upper_set_obj dist seeds σ).2
    (upper_set_obj dist seeds σ).1
    (Ok (PyAtomSet (upper_set lattice is_above d atoms))).
Proof.
  intros _ Hseeds. unfold upper_set_obj.
  rewrite (atoms_at_represents σ seeds _ Hseeds). destruct d.
  eexists. split; [done|]. apply lookup_insert_eq.
Qed.

Lemma measure_obj_frame_holds (dist atom_set log_base : hval) (σ : hheap) :
  σ ⊆ (measure_obj dist atom_set log_base σ).2.
Proof. unfold measure_obj. by destruct (atoms_at σ atom_set). Qed.

Lemma measure_obj_value_holds
    (dist atom_set log_base : hval) (σ : hheap) (d : FourVariables.dist)
    (p b : value) :
  represents σ dist (PyDist d) -> represents σ atom_set p ->
  represents σ log_base b ->
  result_represents (measure_obj dist atom_set log_base σ).2
    (measure_obj dist atom_set log_base σ).1 (measure d p b).
Proof.
  intros _ Hset _. unfold measure_obj.
  rewrite (atoms_at_represents σ atom_set p Hset).
  by destruct p.
Qed.

(** The first call returns a new set object and leaves the four objects it
    found as they were. *)
Example first_call_on_the_heap :
  first_call.1 = Ok (VRef 10) /\
  first_call.2 !! 10%positive = Some (OAtomSet {[2; 3; 4; 5; 6]}) /\
  first_call.2 !! 4%positive = Some (OList [VRef 2; VRef 3]) /\
  first_call.2 !! 2%positive = Some (OList [VStr "X"]) /\
  size first_call.2 = 10.
Proof. repeat split; vm_compute; reflexivity. Qed.

Lemma example_arguments_hold :
  arguments_hold example_heap dist_ref groups_ref (VInt 2) (VFloat 2%Z)
    (PyDist d) (PyList [X; Y]) (PyInt 2) (PyFloat 2%Z).
Proof.
  unfold arguments_hold. split; [|split; [|split]]; try reflexivity.
  - exists 1%positive. split; reflexivity.
  - apply represents_list. exists 4%positive, [VRef 2; VRef 3].
    split; [reflexivity|]. split; [reflexivity|].
    repeat constructor.
    + apply represents_list. exists 2%positive, [VStr "X"].
      split; [reflexivity|]. split; [reflexivity|]. by repeat constructor.
    + apply represents_list. exists 3%positive, [VStr "Y"].
      split; [reflexivity|]. split; [reflexivity|]. by repeat constructor.
Defined.

Lemma example_arguments_hold_after :
  arguments_hold first_call.2 dist_ref groups_ref (VInt 2) (VFloat 2%Z)
    (PyDist d) (PyList [X; Y]) (PyInt 2) (PyFloat 2%Z).
Proof.
  unfold arguments_hold. split; [|split; [|split]]; try reflexivity.
  - exists 1%positive. split; [reflexivity|]. vm_compute. reflexivity.
  - apply represents_list. exists 4%positive, [VRef 2; VRef 3].
    split; [reflexivity|]. split; [vm_compute; reflexivity|].
    repeat constructor.
    + apply represents_list. exists 2%positive, [VStr "X"].
      split; [reflexivity|]. split; [vm_compute; reflexivity|].
      by repeat constructor.
    + apply represents_list. exists 3%positive, [VStr "Y"].
      split; [reflexivity|]. split; [vm_compute; reflexivity|].
      by repeat constructor.
Defined.

Lemma weakly_shared_no_side_effects_deterministic_witness :
  example_heap ⊆ first_call.2 /\
  arguments_hold first_call.2 dist_ref groups_ref (VInt 2) (VFloat 2%Z)
    (PyDist d) (PyList [X; Y]) (PyInt 2) (PyFloat 2%Z) /\
  (exists outcome : result value,
     result_represents first_call.2 first_call.1 outcome /\
     result_represents second_call.2 second_call.1 outcome) /\
  (exists (l : positive) (atoms : gset nat),
     first_call.1 = Ok (VRef l) /\
     first_call.2 !! l = Some (OAtomSet atoms)).
Proof.
  destruct (weakly_shared_no_side_effects_deterministic
              content measure lattice atom_order is_above
              content_obj get_n_atoms_obj upper_set_obj measure_obj
              content_obj_frame_holds content_obj_value_holds
              get_n_atoms_obj_frame_holds get_n_atoms_obj_value_holds
              upper_set_obj_frame_holds upper_set_obj_value_holds
              measure_obj_frame_holds measure_obj_value_holds
              insertion_order reversing_order example_heap first_call.2
              dist_ref groups_ref (VInt 2) (VFloat 2%Z)
              (PyDist d) (PyList [X; Y]) (PyInt 2) (PyFloat 2%Z)
              example_arguments_hold example_arguments_hold_after)
    as ((Hframe & Hhold) & _ & Hsame & _ & Hset).
  split; [exact Hframe|]. split; [exact Hhold|]. split; [exact Hsame|].
  apply (Hset d [X; Y] eq_refl eq_refl).
  - discriminate.
  - reflexivity.
  - repeat constructor; eexists; reflexivity.
Defined.
